(** * carina: the make-coe cluster service and the multi-cloud client

    A shallow embedding of [make-coe/make-coe.go] (the adapter between the
    cli and the Carina API) and of the [client] package's [Client], with
    the properties of the specification proved over it.

    Conventions.
    - A Go pair [(value, error)] is the sum [result A]: [inl v] when the
      error is [nil], [inr err] otherwise.
    - The remote API, the file system and the cache are explicit state; every
      call that reaches them is appended to a journal, so that "how many
      fetches" and "what ran last" are statements about lists.
    - The two polling loops have no bound in the source; they are embedded
      with a fuel argument and return [None] when the fuel runs out.
    - Logging ([common.Log]) has no effect on results and is left out. *)

From Stdlib Require Import ZArith Ascii String List Bool Lia.
From stdpp Require Import base option list gmap strings.

Local Open Scope string_scope.
Local Open Scope Z_scope.

(** ** Strings, as the Go standard library treats them *)

Module Strings.

(** [strings.ToLower], on the ASCII range: bytes 'A'..'Z' gain 32. *)
Definition lower_ascii (c : ascii) : ascii :=
  let n := N_of_ascii c in
  if ((65 <=? n) && (n <=? 90))%N then ascii_of_N (n + 32) else c.

Fixpoint ToLower (s : string) : string :=
  match s with
  | EmptyString => EmptyString
  | String c s' => String (lower_ascii c) (ToLower s')
  end.

(** [len(s)] *)
Definition len (s : string) : Z := Z.of_nat (String.length s).

(** [s[n:]] for [0 <= n <= len s] *)
Fixpoint drop (n : nat) (s : string) : string :=
  match n, s with
  | O, _ => s
  | S n', String _ s' => drop n' s'
  | S _, EmptyString => EmptyString
  end.

Definition slice_from (n : Z) (s : string) : string := drop (Z.to_nat n) s.

(** [strings.HasPrefix] *)
Definition HasPrefix (s pre : string) : bool := String.prefix pre s.

(** [strings.HasSuffix] *)
Definition HasSuffix (s suf : string) : bool :=
  String.prefix (String.rev suf) (String.rev s).

(** [strings.Index]: first position of [sub] in [s], or [-1]. *)
Definition Index (s sub : string) : Z :=
  match String.index 0 sub s with
  | Some i => Z.of_nat i
  | None => -1
  end.

(** [strings.Split(s, sep)] for a one-byte separator. The result is never
    empty: a string without the separator gives the one-element slice. *)
Fixpoint Split (s : string) (sep : ascii) : list string :=
  match s with
  | EmptyString => [EmptyString]
  | String c s' =>
      if Ascii.eqb c sep then EmptyString :: Split s' sep
      else match Split s' sep with
           | p :: ps => String c p :: ps
           | [] => [String c EmptyString]
           end
  end.

End Strings.

(** ** The glob matcher (github.com/ryanuber/go-glob)

    [make-coe.go] calls [glob.GlobI] and the client calls [glob.Glob]. The
    library is a dependency, not a file of this repository; it is embedded
    from its published source: the only wildcard is the star. *)

Module glob.
Import Strings.

Definition GLOB : string := "*".
Definition GLOB_byte : ascii := "*"%char.

(** The loop over [parts[0 .. end-1]] followed by the test of the last
    section; [i] is the index of the head of [parts]. *)
Fixpoint match_parts (leadingGlob trailingGlob : bool) (i : nat)
         (parts : list string) (subj : string) : bool :=
  match parts with
  | [] => false
  | [last] => trailingGlob || HasSuffix subj last
  | part :: rest =>
      let idx := Index subj part in
      let stop :=
        match i with
        | O => negb leadingGlob && negb (idx =? 0)
        | S _ => idx <? 0
        end in
      if stop then false
      else match_parts leadingGlob trailingGlob (S i) rest
                       (slice_from (idx + len part) subj)
  end.

Definition Glob (pattern subj : string) : bool :=
  if String.eqb pattern "" then String.eqb subj pattern
  else if String.eqb pattern GLOB then true
  else
    let parts := Split pattern GLOB_byte in
    if (length parts =? 1)%nat then String.eqb subj pattern
    else
      match_parts (HasPrefix pattern GLOB) (HasSuffix pattern GLOB)
                  0 parts subj.

(** Whether a string holds the wildcard. *)
Fixpoint hasGlob (s : string) : bool :=
  match s with
  | EmptyString => false
  | String c s' => Ascii.eqb c GLOB_byte || hasGlob s'
  end.

(** [GlobI] is the case-insensitive version of [Glob]. *)
Definition GlobI (pattern subj : string) : bool :=
  Glob (ToLower pattern) (ToLower subj).

End glob.

(** ** Errors

    [error] collects the error values that flow through the two packages:
    [libcarina.HTTPErr], the string errors of [errors.New] and [fmt.Errorf],
    the wrappers of [errors.Wrap], [common.MultipleMatchingTemplatesError],
    the client's own wrapper and the path errors of package [os]. *)

(** [libcarina.HTTPErr], with the field the adapter reads and the body. *)
Record HTTPErr := mkHTTPErr { StatusCode : Z; Body : string }.

Inductive error : Type :=
| EHTTP (e : HTTPErr)
| ErrorString (msg : string)
| Wrapped (cause : error) (msg : string)
| MultipleMatchingTemplatesError (TemplatePattern : string)
| ClientError (cause : error)
| PathError (path : string) (notExist : bool).

Definition result (A : Type) : Type := (A + error)%type.

Module errors.

Definition New (msg : string) : error := ErrorString msg.

(** [errors.Wrap] of a non-nil error. *)
Definition Wrap (err : error) (msg : string) : error := Wrapped err msg.

(** [errors.Cause] follows the wrappers of [errors.Wrap] down to the first
    error that is not one. It is only ever applied to errors that come from
    the remote. *)
Fixpoint Cause (err : error) : error :=
  match err with
  | Wrapped cause _ => Cause cause
  | _ => err
  end.

End errors.

Module http.
Definition StatusNotFound : Z := 404.
End http.

(** ** Values of the API *)

(** [libcarina.Cluster] behind [makecoe.Cluster]; [GetID], [GetName] and
    [GetStatus] of [common.Cluster] read the fields. *)
Record Cluster := mkCluster {
  ID : string;
  Name : string;
  Status : string;
  Nodes : Z
}.

Definition GetID (c : Cluster) : string := ID c.
Definition GetName (c : Cluster) : string := Name c.
Definition GetStatus (c : Cluster) : string := Status c.

Definition with_Status (c : Cluster) (s : string) : Cluster :=
  {| ID := ID c; Name := Name c; Status := s; Nodes := Nodes c |}.

(** [libcarina.ClusterType] behind [makecoe.ClusterTemplate]. *)
Record ClusterType := mkClusterType {
  TypeID : Z;
  TypeName : string;
  COE : string;
  HostType : string
}.

Record CreateClusterOpts := mkCreateClusterOpts {
  OptName : string;
  OptClusterTypeID : Z;
  OptNodes : Z
}.

(** [libcarina.CredentialsBundle]: file name and contents, in the order a
    [range] over [Files] visits them. *)
Record CredentialsBundle := mkBundle { Files : list (string * string) }.

(** [makecoe.Quotas] is a struct without fields of its own. *)
Record Quotas := mkQuotas { }.

(** The handle returned by [Account.Authenticate]. *)
Inductive CarinaClient := carinaClient.

(** ** The remote side

    What [libcarina.CarinaClient] and [Account.Authenticate] answer is not
    decided by this repository. A remote of type [B] answers each call and
    moves to its next state. *)

Class CarinaAPI (B : Type) := {
  api_Authenticate : B -> result CarinaClient * B;
  api_Create : CreateClusterOpts -> B -> result Cluster * B;
  api_Get : string -> B -> result Cluster * B;
  api_Delete : string -> B -> result Cluster * B;
  api_Resize : string -> Z -> B -> result Cluster * B;
  api_List : B -> result (list Cluster) * B;
  api_ListClusterTypes : B -> result (list ClusterType) * B;
  api_GetCredentials : string -> B -> result CredentialsBundle * B
}.

(** One entry per call that leaves the process, and one per sleep. *)
Inductive Call :=
| CallAuthenticate
| CallCreate (opts : CreateClusterOpts)
| CallGet (token : string)
| CallDelete (token : string)
| CallResize (token : string) (nodes : Z)
| CallList
| CallListClusterTypes
| CallGetCredentials (token : string)
| CallSleep (seconds : Z).

Definition is_fetch (c : Call) : bool :=
  match c with CallGet _ => true | _ => false end.

Definition is_sleep (c : Call) : bool :=
  match c with CallSleep _ => true | _ => false end.

Definition is_remote (c : Call) : bool :=
  match c with CallSleep _ => false | _ => true end.

(** Number of [GetCluster] round trips in a journal. *)
Definition fetches (j : list Call) : nat := length (List.filter is_fetch j).

(** Number of sleeps in a journal. *)
Definition sleeps (j : list Call) : nat := length (List.filter is_sleep j).

(** The part of a journal that follows its first sleep. *)
Fixpoint after_first_sleep (j : list Call) : list Call :=
  match j with
  | [] => []
  | CallSleep _ :: rest => rest
  | _ :: rest => after_first_sleep rest
  end.

(** The fetches a polling loop repeats: those it issues once it has slept. *)
Definition refetches (j : list Call) : nat := fetches (after_first_sleep j).

(** ** State-passing programs *)

(** A total program over a state [S]. *)
Definition State (S A : Type) : Type := S -> A * S.

(** A program that may still be running when its fuel is spent. *)
Definition Prog (S A : Type) : Type := S -> option (A * S).

Definition lift {S A} (m : State S A) : Prog S A := fun s => Some (m s).

(** [defer f] at the head of a function body: [f] runs when the body
    returns, whatever it returns. A body that never returns never reaches
    it. *)
Definition with_defer {S A} (deferred : S -> S) (body : Prog S A) : Prog S A :=
  fun s => match body s with
           | Some (a, s') => Some (a, deferred s')
           | None => None
           end.

(** ** make-coe/make-coe.go *)

Module makecoe.

(** The [MakeCOE] struct ([client], [clusterTypeCache]) together with the
    remote it talks to and the journal of what it did. *)
Record MakeCOE (B : Type) := mkMakeCOE {
  client : option CarinaClient;
  clusterTypeCache : option (gmap Z ClusterType);
  remote : B;
  journal : list Call
}.
Arguments mkMakeCOE {B}.
Arguments client {B}.
Arguments clusterTypeCache {B}.
Arguments remote {B}.
Arguments journal {B}.

Definition handleNotAcceptable (err : HTTPErr) : error :=
  errors.Wrap (EHTTP err)
    "Unable to communicate with the Carina API because the client is out-of-date. Update the carina client to the latest version. See https://getcarina.com/docs/tutorials/carina-cli#update for instructions.".

Definition handleHTTPError (err : HTTPErr) : error :=
  if StatusCode err =? 406 then handleNotAcceptable err else EHTTP err.

Definition handleLibcarinaError (err : error) : error :=
  match errors.Cause err with
  | EHTTP httpErr => handleHTTPError httpErr
  | _ => err
  end.

(** The closure [isDone] of [WaitUntilClusterIsActive]. *)
Definition isDone (cluster : Cluster) : bool :=
  let status := Strings.ToLower (GetStatus cluster) in
  String.eqb status "active" || String.eqb status "error".

(** The closure [isDone] of [WaitUntilClusterIsDeleted]: the flag and the
    error it returns. *)
Definition isDoneDeleted (cluster : Cluster) : bool * option error :=
  let status := Strings.ToLower (GetStatus cluster) in
  if String.eqb status "error" then
    (true, Some (errors.New "Unable to delete cluster, an error occured while deleting."))
  else (String.eqb status "deleted", None).

(** The error of [isDoneDeleted], by name. *)
Definition deletionError : error :=
  errors.New "Unable to delete cluster, an error occured while deleting.".

Definition pollingInterval : Z := 5.

Section Service.
Context {B : Type} `{CarinaAPI B}.

(** [newCluster()], the constructor of an empty [makecoe.Cluster], is
    declared in another file of the package and stays a parameter. *)
Variable newCluster : Cluster.

(** The order in which [range] visits the values of a map; Go leaves it
    unspecified. *)
Variable rangeOrder : gmap Z ClusterType -> list ClusterType.

Local Abbreviation Svc := (MakeCOE B).

(** A call through [carina.client] (or [Account.Authenticate]). *)
Definition call {A} (c : Call) (f : B -> A * B) : State Svc A :=
  fun carina =>
    let '(a, b') := f (remote carina) in
    (a, mkMakeCOE (client carina) (clusterTypeCache carina) b'
                  (journal carina ++ [c])).

Definition set_client (h : CarinaClient) (carina : Svc) : Svc :=
  mkMakeCOE (Some h) (clusterTypeCache carina) (remote carina)
            (journal carina).

Definition set_clusterTypeCache (m : gmap Z ClusterType) (carina : Svc)
  : Svc :=
  mkMakeCOE (client carina) (Some m) (remote carina) (journal carina).

(** [time.Sleep(pollingInterval)] *)
Definition sleep (carina : Svc) : Svc :=
  mkMakeCOE (client carina) (clusterTypeCache carina) (remote carina)
            (journal carina ++ [CallSleep pollingInterval]).

Definition init : State Svc (option error) := fun carina =>
  match client carina with
  | None =>
      let '(r, carina) := call CallAuthenticate api_Authenticate carina in
      match r with
      | inr err => (Some err, carina)
      | inl carinaClient => (None, set_client carinaClient carina)
      end
  | Some _ => (None, carina)
  end.

Definition GetQuotas : State Svc (result Quotas) := fun carina =>
  (inl mkQuotas, carina).

Definition listClusterTypes : State Svc (result (list ClusterType)) :=
  fun carina =>
    let '(r, carina) := call CallListClusterTypes api_ListClusterTypes carina in
    match r with
    | inr err =>
        (inr (handleLibcarinaError
                (errors.Wrap err "[make-coe] Unabe to list cluster types")),
         carina)
    | inl clusterTypes => (inl clusterTypes, carina)
    end.

(** The loop that fills the cache: a later entry with the same ID
    replaces an earlier one. *)
Definition fillCache (clusterTypes : list ClusterType)
  : gmap Z ClusterType :=
  foldl (fun m clusterType => <[TypeID clusterType := clusterType]> m)
        ∅ clusterTypes.

Definition getClusterTypeCache
  : State Svc (result (gmap Z ClusterType)) := fun carina =>
  match clusterTypeCache carina with
  | None =>
      let '(r, carina) := listClusterTypes carina in
      match r with
      | inr err => (inr err, carina)
      | inl clusterTypes =>
          let cache := fillCache clusterTypes in
          (inl cache, set_clusterTypeCache cache carina)
      end
  | Some cache => (inl cache, carina)
  end.

(** The [for ... range cache] loop of [lookupClusterTypeByName];
    [clusterType] is the match found so far. *)
Fixpoint lookupLoop (pattern : string) (ms : list ClusterType)
         (clusterType : option ClusterType)
  : result (option ClusterType) :=
  match ms with
  | [] => inl clusterType
  | m :: ms' =>
      if negb (glob.GlobI pattern (TypeName m)) then
        lookupLoop pattern ms' clusterType
      else
        match clusterType with
        | None => lookupLoop pattern ms' (Some m)
        | Some _ => inr (MultipleMatchingTemplatesError pattern)
        end
  end.

Definition lookupClusterTypeByName (pattern : string)
  : State Svc (result ClusterType) := fun carina =>
  let '(r, carina) := getClusterTypeCache carina in
  match r with
  | inr err => (inr err, carina)
  | inl cache =>
      match lookupLoop pattern (rangeOrder cache) None with
      | inr err => (inr err, carina)
      | inl None =>
          (inr (ErrorString ("Could not find template named " ++ pattern)),
           carina)
      | inl (Some clusterType) => (inl clusterType, carina)
      end
  end.

Definition CreateCluster (name template : string) (nodes : Z)
  : State Svc (result Cluster) := fun carina =>
  if String.eqb template "" then
    (inr (errors.New "--template is required"), carina)
  else
    let '(err, carina) := init carina in
    match err with
    | Some err => (inr err, carina)
    | None =>
        let '(r, carina) := lookupClusterTypeByName template carina in
        match r with
        | inr err => (inr err, carina)
        | inl clusterType =>
            let createOpts :=
              mkCreateClusterOpts name (TypeID clusterType) nodes in
            let '(r, carina) :=
              call (CallCreate createOpts) (api_Create createOpts) carina in
            match r with
            | inr err =>
                (inr (handleLibcarinaError
                        (errors.Wrap err "[make-coe] Unable to create cluster")),
                 carina)
            | inl result => (inl result, carina)
            end
        end
    end.

Definition GetClusterCredentials (token : string)
  : State Svc (result CredentialsBundle) := fun carina =>
  let '(err, carina) := init carina in
  match err with
  | Some err => (inr err, carina)
  | None =>
      let '(r, carina) :=
        call (CallGetCredentials token) (api_GetCredentials token) carina in
      match r with
      | inr err =>
          (inr (handleLibcarinaError
                  (errors.Wrap err
                     "[make-coe] Unable to retrieve the cluster credentials")),
           carina)
      | inl creds => (inl creds, carina)
      end
  end.

Definition ListClusters : State Svc (result (list Cluster)) :=
  fun carina =>
  let '(err, carina) := init carina in
  match err with
  | Some err => (inr err, carina)
  | None =>
      let '(r, carina) := call CallList api_List carina in
      match r with
      | inr err =>
          (inr (handleLibcarinaError
                  (errors.Wrap err "[make-coe] Unable to list clusters")),
           carina)
      | inl results => (inl results, carina)
      end
  end.

Definition ListClusterTemplates : State Svc (result (list ClusterType)) :=
  fun carina =>
  let '(err, carina) := init carina in
  match err with
  | Some err => (inr err, carina)
  | None =>
      let '(r, carina) := listClusterTypes carina in
      match r with
      | inr err => (inr err, carina)
      | inl results => (inl results, carina)
      end
  end.

Definition RebuildCluster (token : string) : State Svc (result Cluster) :=
  fun carina =>
    (inr (errors.New
            "[make-coe] Rebuilding clusters from the carina cli is not supported yet"),
     carina).

Definition GetCluster (token : string) : State Svc (result Cluster) :=
  fun carina =>
  let '(err, carina) := init carina in
  match err with
  | Some err => (inr err, carina)
  | None =>
      let '(r, carina) := call (CallGet token) (api_Get token) carina in
      match r with
      | inr err =>
          (inr (handleLibcarinaError
                  (errors.Wrap err
                     ("[make-coe] Unable to retrieve cluster (" ++ token ++ ")"))),
           carina)
      | inl result => (inl result, carina)
      end
  end.

Definition DeleteCluster (token : string) : State Svc (result Cluster) :=
  fun carina =>
  let '(err, carina) := init carina in
  match err with
  | Some err => (inr err, carina)
  | None =>
      let '(r, carina) := call (CallDelete token) (api_Delete token) carina in
      match r with
      | inr err =>
          let cause := errors.Cause err in
          let otherwise :=
            (inr (handleLibcarinaError
                    (errors.Wrap cause
                       ("[make-coe] Unable to delete cluster (" ++ token ++ ")"))),
             carina) in
          match cause with
          | EHTTP httpErr =>
              if StatusCode httpErr =? http.StatusNotFound then
                let cluster := with_Status newCluster "deleted" in
                (inl cluster, carina)
              else otherwise
          | _ => otherwise
          end
      | inl result => (inl result, carina)
      end
  end.

Definition GrowCluster (token : string) (nodes : Z)
  : State Svc (result Cluster) := fun carina =>
  (inr (errors.New
          "[make-coe] Grow command not supported. Please use 'resize'."),
   carina).

Definition ResizeCluster (token : string) (nodes : Z)
  : State Svc (result Cluster) := fun carina =>
  let '(err, carina) := init carina in
  match err with
  | Some err => (inr err, carina)
  | None =>
      let '(r, carina) :=
        call (CallResize token nodes) (api_Resize token nodes) carina in
      match r with
      | inr err =>
          (inr (handleLibcarinaError
                  (errors.Wrap err
                     ("[make-coe] Unable to resize cluster (" ++ token ++ ")"))),
           carina)
      | inl result => (inl result, carina)
      end
  end.

Definition SetAutoScale (token : string) (value : bool)
  : State Svc (result Cluster) := fun carina =>
  (inr (errors.New "make-coe does not support autoscaling"), carina).

(** The [for] loop of [WaitUntilClusterIsActive]. The [cluster] it reads
    the ID from is the argument of the function on every round: the
    [cluster] declared inside the loop body shadows it only after the
    fetch. *)
Fixpoint waitActiveLoop (fuel : nat) (cluster : Cluster)
  : Prog Svc (result Cluster) := fun carina =>
  match fuel with
  | O => None
  | S fuel' =>
      let '(r, carina) := GetCluster (GetID cluster) carina in
      match r with
      | inr err => Some (inr err, carina)
      | inl fetched =>
          if isDone fetched then Some (inl fetched, carina)
          else waitActiveLoop fuel' cluster (sleep carina)
      end
  end.

Definition WaitUntilClusterIsActive (fuel : nat) (cluster : Cluster)
  : Prog Svc (result Cluster) := fun carina =>
  if isDone cluster then Some (inl cluster, carina)
  else waitActiveLoop fuel cluster carina.

(** The [for] loop of [WaitUntilClusterIsDeleted]. *)
Fixpoint waitDeletedLoop (fuel : nat) (cluster : Cluster)
  : Prog Svc (option error) := fun carina =>
  match fuel with
  | O => None
  | S fuel' =>
      let '(r, carina) := GetCluster (GetID cluster) carina in
      match r with
      | inr err =>
          let cause := errors.Cause err in
          match cause with
          | EHTTP httpErr =>
              if StatusCode httpErr =? http.StatusNotFound
              then Some (None, carina)
              else Some (Some err, carina)
          | _ => Some (Some err, carina)
          end
      | inl fetched =>
          let '(done, err) := isDoneDeleted fetched in
          if done then Some (err, carina)
          else waitDeletedLoop fuel' cluster (sleep carina)
      end
  end.

Definition WaitUntilClusterIsDeleted (fuel : nat) (cluster : Cluster)
  : Prog Svc (option error) := fun carina =>
  let '(done, err) := isDoneDeleted cluster in
  if done then Some (err, carina)
  else waitDeletedLoop fuel cluster carina.

(** The terminal states of the wait for an active cluster, in the
    words of the specification: the status, compared without regard to
    case, is "active" or "error". *)
Definition terminal_status (cluster : Cluster) : Prop :=
  Strings.ToLower (GetStatus cluster) = "active" \/
  Strings.ToLower (GetStatus cluster) = "error".

(** An error whose cause is an HTTP 404. *)
Definition is_not_found (err : error) : Prop :=
  exists httpErr, errors.Cause err = EHTTP httpErr /\
                  StatusCode httpErr = http.StatusNotFound.

(** [n] rounds of the loop of [WaitUntilClusterIsActive] that leave it
    waiting: each fetches a cluster that is not done and sleeps. *)
Inductive activeRounds (token : string) : nat -> Svc -> Svc -> Prop :=
| activeRounds_O carina : activeRounds token O carina carina
| activeRounds_S n carina fetched carina1 carina' :
    GetCluster token carina = (inl fetched, carina1) ->
    isDone fetched = false ->
    activeRounds token n (sleep carina1) carina' ->
    activeRounds token (S n) carina carina'.

(** The same for the loop of [WaitUntilClusterIsDeleted]. *)
Inductive deletedRounds (token : string) : nat -> Svc -> Svc -> Prop :=
| deletedRounds_O carina : deletedRounds token O carina carina
| deletedRounds_S n carina fetched carina1 carina' :
    GetCluster token carina = (inl fetched, carina1) ->
    fst (isDoneDeleted fetched) = false ->
    deletedRounds token n (sleep carina1) carina' ->
    deletedRounds token (S n) carina carina'.

End Service.

End makecoe.

(** ** The [common.ClusterService] interface

    Every backend implements it over its own state [S]. The two waits are
    the only methods that loop. *)

Class ClusterService (S : Type) := {
  svc_GetQuotas : State S (result Quotas);
  svc_CreateCluster : string -> string -> Z -> State S (result Cluster);
  svc_GetClusterCredentials : string -> State S (result CredentialsBundle);
  svc_ListClusters : State S (result (list Cluster));
  svc_ListClusterTemplates : State S (result (list ClusterType));
  svc_RebuildCluster : string -> State S (result Cluster);
  svc_GetCluster : string -> State S (result Cluster);
  svc_DeleteCluster : string -> State S (result Cluster);
  svc_GrowCluster : string -> Z -> State S (result Cluster);
  svc_ResizeCluster : string -> Z -> State S (result Cluster);
  svc_SetAutoScale : string -> bool -> State S (result Cluster);
  svc_WaitUntilClusterIsActive : nat -> Cluster -> Prog S (result Cluster);
  svc_WaitUntilClusterIsDeleted : nat -> Cluster -> Prog S (option error)
}.

Definition MakeCOE_ClusterService {B} `{CarinaAPI B}
  (newCluster : Cluster) (rangeOrder : gmap Z ClusterType -> list ClusterType)
  : ClusterService (makecoe.MakeCOE B) := {|
  svc_GetQuotas := makecoe.GetQuotas;
  svc_CreateCluster := makecoe.CreateCluster rangeOrder;
  svc_GetClusterCredentials := makecoe.GetClusterCredentials;
  svc_ListClusters := makecoe.ListClusters;
  svc_ListClusterTemplates := makecoe.ListClusterTemplates;
  svc_RebuildCluster := makecoe.RebuildCluster;
  svc_GetCluster := makecoe.GetCluster;
  svc_DeleteCluster := makecoe.DeleteCluster newCluster;
  svc_GrowCluster := makecoe.GrowCluster;
  svc_ResizeCluster := makecoe.ResizeCluster;
  svc_SetAutoScale := makecoe.SetAutoScale;
  svc_WaitUntilClusterIsActive := makecoe.WaitUntilClusterIsActive;
  svc_WaitUntilClusterIsDeleted := makecoe.WaitUntilClusterIsDeleted
|}.

(** ** Package [os], as far as the client uses it *)

Class FileSystem (FS : Type) := {
  os_Stat : string -> FS -> option error;
  os_MkdirAll : string -> FS -> option error * FS;
  os_WriteFile : string -> string -> FS -> option error * FS;
  os_RemoveAll : string -> FS -> option error * FS
}.

Module os.
(** [os.IsNotExist] *)
Definition IsNotExist (err : option error) : bool :=
  match err with
  | Some (PathError _ notExist) => notExist
  | _ => false
  end.
End os.

(** ** What the client takes from other files and libraries

    [Account.NewClusterService], the helpers [buildClusterCredentialsPath],
    [getCredentialScriptPath] and [sourceHelpString] of the package, the
    load-and-verify of a credentials bundle ([libcarina]:
    [LoadCredentialsBundle] then [Verify]) and [filepath.Clean] and
    [filepath.Join]. The client is embedded over any choice of them. *)

Class Collaborators (A S FS : Type) := {
  NewClusterService : A -> S -> S;
  buildClusterCredentialsPath : A -> string -> string -> result string;
  LoadAndVerify : string -> FS -> option error;
  getCredentialScriptPath : string -> string -> result string;
  sourceHelpString : string -> string -> string -> string;
  filepath_Clean : string -> string;
  filepath_Join : string -> string -> string
}.

(** ** The client (package [client]) *)

Module client.

(** What the client does to its [Cache], and which method of the cluster
    service it invokes, in order. *)
Inductive Method :=
| MGetQuotas | MCreateCluster | MGetClusterCredentials | MListClusters
| MListClusterTemplates | MRebuildCluster | MGetCluster | MDeleteCluster
| MGrowCluster | MResizeCluster | MSetAutoScale
| MWaitUntilClusterIsActive | MWaitUntilClusterIsDeleted.

Inductive Event (A : Type) :=
| CacheApply (account : A)
| CacheSaveAccount (account : A)
| Invoke (m : Method).
Arguments CacheApply {A}.
Arguments CacheSaveAccount {A}.
Arguments Invoke {A}.

Definition is_save {A} (e : Event A) : bool :=
  match e with CacheSaveAccount _ => true | _ => false end.

(** The world of one client: the cluster service it built last, the disk
    and the record of events. *)
Record World (A S FS : Type) := mkWorld {
  service : S;
  disk : FS;
  events : list (Event A)
}.
Arguments mkWorld {A S FS}.
Arguments service {A S FS}.
Arguments disk {A S FS}.
Arguments events {A S FS}.

Definition wrapClientError (err : option error) : option error :=
  match err with
  | None => None
  | Some err => Some (ClientError err)
  end.

(** [return v, wrapClientError(err)] *)
Definition wrapResult {T} (r : result T) : result T :=
  match r with
  | inl v => inl v
  | inr err => inr (ClientError err)
  end.

Section Client.
Context {A S FS : Type}.
Context {svcC : ClusterService S} {fsC : FileSystem FS}
        {colC : Collaborators A S FS}.

Local Abbreviation W := (World A S FS).

Definition emit (e : Event A) (w : W) : W :=
  mkWorld (service w) (disk w) (events w ++ [e]).

(** [client.Cache.SaveAccount(account)] *)
Definition SaveAccount (account : A) (w : W) : W :=
  emit (CacheSaveAccount account) w.

(** A method of the service built by [buildContainerService]. *)
Definition invoke {T} (m : Method) (f : State S T) : State W T :=
  fun w =>
    let '(r, s') := f (service w) in
    (r, mkWorld s' (disk w) (events w ++ [Invoke m])).

Definition invoke_wait {T} (m : Method) (f : Prog S T) : Prog W T :=
  fun w =>
    match f (service w) with
    | Some (r, s') => Some (r, mkWorld s' (disk w) (events w ++ [Invoke m]))
    | None => None
    end.

(** An operation of package [os] on the disk. *)
Definition on_disk {T} (f : FS -> T * FS) : State W T :=
  fun w =>
    let '(r, d') := f (disk w) in
    (r, mkWorld (service w) d' (events w)).

Definition buildContainerService (account : A) : State W (result unit) :=
  fun w =>
    let w := emit (CacheApply account) w in
    (inl tt,
     mkWorld (NewClusterService account (service w)) (disk w) (events w)).

Definition GetQuotas (account : A) : Prog W (result Quotas) :=
  with_defer (SaveAccount account) (fun w =>
    let '(b, w) := buildContainerService account w in
    match b with
    | inr err => Some (inr err, w)
    | inl _ =>
        let '(r, w) := invoke MGetQuotas svc_GetQuotas w in
        Some (wrapResult r, w)
    end).

(** The statements that end [CreateCluster], [GetCluster], [GrowCluster],
    [ResizeCluster] and [RebuildCluster] alike:
    [if waitUntilActive && err == nil { cluster, err = svc.WaitUntilClusterIsActive(cluster) }]
    and [return cluster, wrapClientError(err)]. *)
Definition thenWaitUntilActive (fuel : nat) (waitUntilActive : bool)
           (r : result Cluster) : Prog W (result Cluster) := fun w =>
  match waitUntilActive, r with
  | true, inl cluster =>
      match invoke_wait MWaitUntilClusterIsActive
              (svc_WaitUntilClusterIsActive fuel cluster) w with
      | Some (r, w) => Some (wrapResult r, w)
      | None => None
      end
  | _, _ => Some (wrapResult r, w)
  end.

Definition CreateCluster (fuel : nat) (account : A)
           (name template : string) (nodes : Z) (waitUntilActive : bool)
  : Prog W (result Cluster) :=
  with_defer (SaveAccount account) (fun w =>
    let '(b, w) := buildContainerService account w in
    match b with
    | inr err => Some (inr err, w)
    | inl _ =>
        let '(r, w) :=
          invoke MCreateCluster (svc_CreateCluster name template nodes) w in
        thenWaitUntilActive fuel waitUntilActive r w
    end).

(** The loop over [creds.Files]. *)
Fixpoint writeFiles (credentialsPath : string)
         (files : list (string * string)) : State W (option error) :=
  fun w =>
    match files with
    | [] => (None, w)
    | (file, fileContents) :: rest =>
        let file := filepath_Join credentialsPath file in
        let '(err, w) := on_disk (os_WriteFile file fileContents) w in
        match err with
        | Some err => (Some err, w)
        | None => writeFiles credentialsPath rest w
        end
    end.

Definition DownloadClusterCredentials (account : A)
           (name customPath : string) : Prog W (result string) :=
  with_defer (SaveAccount account) (fun w =>
    let '(b, w) := buildContainerService account w in
    match b with
    | inr err => Some (inr err, w)
    | inl _ =>
        let '(r, w) :=
          invoke MGetClusterCredentials (svc_GetClusterCredentials name) w in
        match r with
        | inr err => Some (inr (ClientError err), w)
        | inl creds =>
            match buildClusterCredentialsPath account name customPath with
            | inr err =>
                Some (inr (errors.Wrap err
                             "Unable to save downloaded cluster credentials"),
                      w)
            | inl credentialsPath =>
                let '(err, w) :=
                  if String.eqb credentialsPath "." then (None, w)
                  else on_disk (os_MkdirAll credentialsPath) w in
                match err with
                | Some err => Some (inr err, w)
                | None =>
                    let '(err, w) :=
                      writeFiles credentialsPath (Files creds) w in
                    match err with
                    | Some err => Some (inr err, w)
                    | None => Some (inl credentialsPath, w)
                    end
                end
            end
        end
    end).

Definition GetSourceCommand (account : A) (shell name customPath : string)
  : Prog W (result string) := fun w =>
  let credentialsPath :=
    match buildClusterCredentialsPath account name customPath with
    | inl p => p
    | inr _ => ""
    end in
  let continue (credentialsPath : string) (w : W) :=
    match getCredentialScriptPath credentialsPath shell with
    | inr err => Some (inr err, w)
    | inl shellScriptPath =>
        Some (inl (sourceHelpString shellScriptPath name shell), w)
    end in
  match LoadAndVerify credentialsPath (disk w) with
  | Some _ =>
      match DownloadClusterCredentials account name customPath w with
      | None => None
      | Some (inr err, w) => Some (inr err, w)
      | Some (inl credentialsPath, w) => continue credentialsPath w
      end
  | None => continue credentialsPath w
  end.

Definition ListClusters (account : A) : Prog W (result (list Cluster)) :=
  with_defer (SaveAccount account) (fun w =>
    let '(b, w) := buildContainerService account w in
    match b with
    | inr err => Some (inr err, w)
    | inl _ =>
        let '(r, w) := invoke MListClusters svc_ListClusters w in
        Some (wrapResult r, w)
    end).

Definition ListClusterTemplates (account : A) (nameFilter : string)
  : Prog W (result (list ClusterType)) :=
  with_defer (SaveAccount account) (fun w =>
    let '(b, w) := buildContainerService account w in
    match b with
    | inr err => Some (inr err, w)
    | inl _ =>
        let '(r, w) :=
          invoke MListClusterTemplates svc_ListClusterTemplates w in
        let r :=
          match r with
          | inl templates =>
              if negb (String.eqb nameFilter "") then
                inl (List.filter
                       (fun template =>
                          glob.Glob nameFilter (TypeName template))
                       templates)
              else inl templates
          | inr err => inr err
          end in
        Some (wrapResult r, w)
    end).

Definition GetCluster (fuel : nat) (account : A) (name : string)
           (waitUntilActive : bool) : Prog W (result Cluster) :=
  with_defer (SaveAccount account) (fun w =>
    let '(b, w) := buildContainerService account w in
    match b with
    | inr err => Some (inr err, w)
    | inl _ =>
        let '(r, w) := invoke MGetCluster (svc_GetCluster name) w in
        thenWaitUntilActive fuel waitUntilActive r w
    end).

Definition GrowCluster (fuel : nat) (account : A) (name : string)
           (nodes : Z) (waitUntilActive : bool) : Prog W (result Cluster) :=
  with_defer (SaveAccount account) (fun w =>
    let '(b, w) := buildContainerService account w in
    match b with
    | inr err => Some (inr err, w)
    | inl _ =>
        let '(r, w) := invoke MGrowCluster (svc_GrowCluster name nodes) w in
        thenWaitUntilActive fuel waitUntilActive r w
    end).

Definition ResizeCluster (fuel : nat) (account : A) (name : string)
           (nodes : Z) (waitUntilActive : bool) : Prog W (result Cluster) :=
  with_defer (SaveAccount account) (fun w =>
    let '(b, w) := buildContainerService account w in
    match b with
    | inr err => Some (inr err, w)
    | inl _ =>
        let '(r, w) :=
          invoke MResizeCluster (svc_ResizeCluster name nodes) w in
        thenWaitUntilActive fuel waitUntilActive r w
    end).

Definition RebuildCluster (fuel : nat) (account : A) (name : string)
           (waitUntilActive : bool) : Prog W (result Cluster) :=
  with_defer (SaveAccount account) (fun w =>
    let '(b, w) := buildContainerService account w in
    match b with
    | inr err => Some (inr err, w)
    | inl _ =>
        let '(r, w) := invoke MRebuildCluster (svc_RebuildCluster name) w in
        thenWaitUntilActive fuel waitUntilActive r w
    end).

Definition SetAutoScale (account : A) (name : string) (value : bool)
  : Prog W (result Cluster) :=
  with_defer (SaveAccount account) (fun w =>
    let '(b, w) := buildContainerService account w in
    match b with
    | inr err => Some (inr err, w)
    | inl _ =>
        let '(r, w) :=
          invoke MSetAutoScale (svc_SetAutoScale name value) w in
        Some (wrapResult r, w)
    end).

Definition DeleteClusterCredentials (account : A)
           (name customPath : string) : State W (option error) := fun w =>
  match buildClusterCredentialsPath account name customPath with
  | inr err => (Some err, w)
  | inl p =>
      let p := filepath_Clean p in
      if String.eqb p "" || String.eqb p "." || String.eqb p "/" then
        (Some (errors.New
                 "Path to cluster is empty, the current directory, or a root path, not deleting"),
         w)
      else
        let statErr := os_Stat p (disk w) in
        if os.IsNotExist statErr then (None, w)
        else
          let statErr := os_Stat (filepath_Join p "ca.pem") (disk w) in
          if os.IsNotExist statErr then
            (Some (errors.New
                     "Path to cluster credentials exists but not the ca.pem, not deleting"),
             w)
          else
            let '(err, w) := on_disk (os_RemoveAll p) w in
            match err with
            | Some err =>
                (Some (errors.Wrap err
                         "Unable to delete the credentials on disk"), w)
            | None => (None, w)
            end
  end.

Definition DeleteCluster (fuel : nat) (account : A) (name : string)
           (waitUntilDeleted : bool) : Prog W (option error) :=
  with_defer (SaveAccount account) (fun w =>
    let '(b, w) := buildContainerService account w in
    match b with
    | inr err => Some (Some err, w)
    | inl _ =>
        let '(r, w) := invoke MDeleteCluster (svc_DeleteCluster name) w in
        let waited :=
          match waitUntilDeleted, r with
          | true, inl cluster =>
              invoke_wait MWaitUntilClusterIsDeleted
                (svc_WaitUntilClusterIsDeleted fuel cluster) w
          | _, inl _ => Some (None, w)
          | _, inr err => Some (Some err, w)
          end in
        match waited with
        | None => None
        | Some (Some err, w) => Some (wrapClientError (Some err), w)
        | Some (None, w) =>
            let '(err, w) := DeleteClusterCredentials account name "" w in
            Some (wrapClientError err, w)
        end
    end).

(** The exported methods of [Client], as values. *)
Inductive Operation :=
| OpGetQuotas (account : A)
| OpCreateCluster (account : A) (name template : string) (nodes : Z)
                  (waitUntilActive : bool)
| OpDownloadClusterCredentials (account : A) (name customPath : string)
| OpGetSourceCommand (account : A) (shell name customPath : string)
| OpListClusters (account : A)
| OpListClusterTemplates (account : A) (nameFilter : string)
| OpGetCluster (account : A) (name : string) (waitUntilActive : bool)
| OpGrowCluster (account : A) (name : string) (nodes : Z)
                (waitUntilActive : bool)
| OpResizeCluster (account : A) (name : string) (nodes : Z)
                  (waitUntilActive : bool)
| OpRebuildCluster (account : A) (name : string) (waitUntilActive : bool)
| OpSetAutoScale (account : A) (name : string) (value : bool)
| OpDeleteCluster (account : A) (name : string) (waitUntilDeleted : bool)
| OpDeleteClusterCredentials (account : A) (name customPath : string).

Definition account_of (op : Operation) : A :=
  match op with
  | OpGetQuotas a | OpCreateCluster a _ _ _ _
  | OpDownloadClusterCredentials a _ _ | OpGetSourceCommand a _ _ _
  | OpListClusters a | OpListClusterTemplates a _ | OpGetCluster a _ _
  | OpGrowCluster a _ _ _ | OpResizeCluster a _ _ _
  | OpRebuildCluster a _ _ | OpSetAutoScale a _ _ | OpDeleteCluster a _ _
  | OpDeleteClusterCredentials a _ _ => a
  end.

(** The operations whose body starts with
    [defer client.Cache.SaveAccount(account)]. *)
Definition defers_save (op : Operation) : bool :=
  match op with
  | OpGetSourceCommand _ _ _ _ | OpDeleteClusterCredentials _ _ _ => false
  | _ => true
  end.

(** The operations that may enter a polling loop. *)
Definition may_wait (op : Operation) : bool :=
  match op with
  | OpCreateCluster _ _ _ _ w | OpGetCluster _ _ w | OpGrowCluster _ _ _ w
  | OpResizeCluster _ _ _ w | OpRebuildCluster _ _ w
  | OpDeleteCluster _ _ w => w
  | _ => false
  end.

(** What an operation hands back to the cli. *)
Inductive Outcome :=
| OutQuotas (r : result Quotas)
| OutCluster (r : result Cluster)
| OutClusters (r : result (list Cluster))
| OutTemplates (r : result (list ClusterType))
| OutText (r : result string)
| OutError (err : option error).

Definition returning {T} (f : T -> Outcome) (m : Prog W T) : Prog W Outcome :=
  fun w => match m w with
           | Some (r, w') => Some (f r, w')
           | None => None
           end.

Definition perform (fuel : nat) (op : Operation) : Prog W Outcome :=
  match op with
  | OpGetQuotas a => returning OutQuotas (GetQuotas a)
  | OpCreateCluster a name template nodes wait =>
      returning OutCluster (CreateCluster fuel a name template nodes wait)
  | OpDownloadClusterCredentials a name customPath =>
      returning OutText (DownloadClusterCredentials a name customPath)
  | OpGetSourceCommand a shell name customPath =>
      returning OutText (GetSourceCommand a shell name customPath)
  | OpListClusters a => returning OutClusters (ListClusters a)
  | OpListClusterTemplates a nameFilter =>
      returning OutTemplates (ListClusterTemplates a nameFilter)
  | OpGetCluster a name wait =>
      returning OutCluster (GetCluster fuel a name wait)
  | OpGrowCluster a name nodes wait =>
      returning OutCluster (GrowCluster fuel a name nodes wait)
  | OpResizeCluster a name nodes wait =>
      returning OutCluster (ResizeCluster fuel a name nodes wait)
  | OpRebuildCluster a name wait =>
      returning OutCluster (RebuildCluster fuel a name wait)
  | OpSetAutoScale a name value =>
      returning OutCluster (SetAutoScale a name value)
  | OpDeleteCluster a name wait =>
      returning OutError (DeleteCluster fuel a name wait)
  | OpDeleteClusterCredentials a name customPath =>
      returning OutError (lift (DeleteClusterCredentials a name customPath))
  end.

(** The events an operation added to the record. *)
Definition added (w w' : W) : list (Event A) :=
  List.skipn (length (events w)) (events w').

(** [w'] extends the record of [w] without a [SaveAccount]. *)
Definition quiet (w w' : W) : Prop :=
  exists mid, events w' = (events w ++ mid)%list /\
              Forall (fun e => is_save e = false) mid.

(** An operation on [account] that went from [w] to [w']: the cache
    was applied first and [SaveAccount] ran last, and only then. *)
Definition saved_last (account : A) (w w' : W) : Prop :=
  exists mid,
    events w' =
      (events w ++ CacheApply account :: mid ++ [CacheSaveAccount account])%list /\
    Forall (fun e => is_save e = false) mid.

(** The path [GetSourceCommand] looks at first; the error of
    [buildClusterCredentialsPath] is dropped there. *)
Definition firstCredentialsPath (account : A) (name customPath : string)
  : string :=
  match buildClusterCredentialsPath account name customPath with
  | inl p => p
  | inr _ => ""
  end.

End Client.

End client.

(** ** Concrete collaborators

    A remote that answers from a script, a disk held in memory and Unix
    paths. The theorems below hold for every remote and every disk; these
    instances run them. *)

Module filepath.
Import Strings.

(** [filepath.Clean] on Unix, element by element: empty and [.] elements
    go, a [..] removes the element before it, a [..] at the root goes, and
    an empty result is [.]. [out] is the stack of elements kept. *)
Fixpoint cleanLoop (rooted : bool) (elems out : list string) : list string :=
  match elems with
  | [] => rev out
  | e :: rest =>
      if String.eqb e "" || String.eqb e "." then cleanLoop rooted rest out
      else if String.eqb e ".." then
        match out with
        | top :: out' =>
            if String.eqb top ".." then cleanLoop rooted rest (e :: out)
            else cleanLoop rooted rest out'
        | [] =>
            if rooted then cleanLoop rooted rest out
            else cleanLoop rooted rest [e]
        end
      else cleanLoop rooted rest (e :: out)
  end.

Definition Clean (path : string) : string :=
  if String.eqb path "" then "."
  else
    let rooted := HasPrefix path "/" in
    let body := String.concat "/" (cleanLoop rooted (Split path "/"%char) []) in
    if rooted then "/" ++ body
    else if String.eqb body "" then "." else body.

(** [filepath.Join] of two elements: empty elements are ignored and the
    result is cleaned. *)
Definition Join (a b : string) : string :=
  if String.eqb a "" then (if String.eqb b "" then "" else Clean b)
  else if String.eqb b "" then Clean a
  else Clean (a ++ "/" ++ b).

End filepath.

(** A disk in memory: the list of the paths that exist. *)
Module memfs.
Import Strings.

Definition Disk := list string.

Definition exists_ (p : string) (d : Disk) : bool := existsb (String.eqb p) d.

(** [q] is [p] or lies under it. *)
Definition under (p q : string) : bool :=
  String.eqb q p || HasPrefix q (p ++ "/").

Definition Stat (p : string) (d : Disk) : option error :=
  if exists_ p d then None else Some (PathError p true).

Definition add (p : string) (d : Disk) : Disk :=
  if exists_ p d then d else (d ++ [p])%list.

(** The path and every directory above it, below [base]. *)
Fixpoint ancestors (base : string) (elems : list string) : list string :=
  match elems with
  | [] => []
  | e :: rest =>
      if String.eqb e "" then ancestors base rest
      else let p := filepath.Join base e in p :: ancestors p rest
  end.

Definition MkdirAll (p : string) (d : Disk) : option error * Disk :=
  let base := if HasPrefix p "/" then "/" else "" in
  (None, foldl (fun d q => add q d) d (ancestors base (Split p "/"%char))).

Definition WriteFile (p contents : string) (d : Disk) : option error * Disk :=
  (None, add p d).

Definition RemoveAll (p : string) (d : Disk) : option error * Disk :=
  (None, List.filter (fun q => negb (under p q)) d).

End memfs.

#[export] Instance memfs_FileSystem : FileSystem memfs.Disk := {|
  os_Stat := memfs.Stat;
  os_MkdirAll := memfs.MkdirAll;
  os_WriteFile := memfs.WriteFile;
  os_RemoveAll := memfs.RemoveAll
|}.

(** A remote that answers from a script. [Get] consumes one scripted answer
    per call and fails once the script is spent; the other calls answer the
    same thing every time. *)
Module scripted.

Record Remote := mkRemote {
  auth : result CarinaClient;
  created : result Cluster;
  gets : list (result Cluster);
  deleted : result Cluster;
  resized : result Cluster;
  clusters : result (list Cluster);
  clusterTypes : result (list ClusterType);
  credentials : result CredentialsBundle
}.

Definition Get (token : string) (r : Remote) : result Cluster * Remote :=
  match gets r with
  | [] => (inr (ErrorString "connection reset"), r)
  | a :: rest =>
      (a, mkRemote (auth r) (created r) rest (deleted r) (resized r)
                   (clusters r) (clusterTypes r) (credentials r))
  end.

End scripted.

#[export] Instance scripted_CarinaAPI : CarinaAPI scripted.Remote := {|
  api_Authenticate := fun r => (scripted.auth r, r);
  api_Create := fun _ r => (scripted.created r, r);
  api_Get := scripted.Get;
  api_Delete := fun _ r => (scripted.deleted r, r);
  api_Resize := fun _ _ r => (scripted.resized r, r);
  api_List := fun r => (scripted.clusters r, r);
  api_ListClusterTypes := fun r => (scripted.clusterTypes r, r);
  api_GetCredentials := fun _ r => (scripted.credentials r, r)
|}.

(** The values the examples share. *)
Module fixture.

Definition notFound : error := EHTTP (mkHTTPErr 404 "cluster not found").

Definition cluster (status : string) : Cluster :=
  mkCluster "c-42" "web" status 3.

Definition templates : list ClusterType :=
  [ mkClusterType 1 "Kubernetes-Small" "kubernetes" "lxc";
    mkClusterType 2 "Kubernetes-Large" "kubernetes" "vm";
    mkClusterType 3 "Swarm-Small" "swarm" "lxc" ].

Definition emptyCluster : Cluster := mkCluster "" "" "" 0.

Definition rangeOrder (m : gmap Z ClusterType) : list ClusterType :=
  (map_to_list m).*2.

Definition remote (gets : list (result Cluster)) (deleted : result Cluster)
  : scripted.Remote :=
  scripted.mkRemote (inl carinaClient) (inl (cluster "building")) gets
                    deleted (inl (cluster "active")) (inl [cluster "active"])
                    (inl templates)
                    (inl (mkBundle [("ca.pem", "CA"); ("docker.env", "ENV")])).

(** A service that has authenticated already. *)
Definition ready (r : scripted.Remote) : makecoe.MakeCOE scripted.Remote :=
  makecoe.mkMakeCOE (Some carinaClient) None r [].

(** A service as [NewClusterService] hands it out. *)
Definition fresh (r : scripted.Remote) : makecoe.MakeCOE scripted.Remote :=
  makecoe.mkMakeCOE None None r [].

Definition credentialsRoot : string := "/home/u/.carina/clusters".

End fixture.

(** Modelled from the spec: the collaborators of the client that are
    declared outside [client.go], for the examples. Accounts are named by a
    string; a new service starts without a session and without a template
    cache, against the same remote; the credentials path is the override
    directory if supplied, else a subdirectory of the account's credential
    root keyed by cluster name; a bundle is valid iff its path exists and
    contains the CA certificate. *)
#[export] Instance fixture_Collaborators
  : Collaborators string (makecoe.MakeCOE scripted.Remote) memfs.Disk := {|
  NewClusterService := fun _ s =>
    makecoe.mkMakeCOE None None (makecoe.remote s) (makecoe.journal s);
  buildClusterCredentialsPath := fun account name customPath =>
    if String.eqb customPath "" then
      inl (filepath.Join (filepath.Join fixture.credentialsRoot account) name)
    else inl customPath;
  LoadAndVerify := fun path d =>
    if memfs.exists_ path d && memfs.exists_ (filepath.Join path "ca.pem") d
    then None
    else Some (ErrorString "invalid credentials bundle");
  getCredentialScriptPath := fun credentialsPath shell =>
    inl (filepath.Join credentialsPath "docker.env");
  sourceHelpString := fun shellScriptPath name shell =>
    "source " ++ shellScriptPath;
  filepath_Clean := filepath.Clean;
  filepath_Join := filepath.Join
|}.

(** Worlds for the examples: the account "acct" has the credentials of
    the cluster "web" on disk, with their [ca.pem]; the directory of "old"
    has lost it. *)
Module scenario.

Definition service : ClusterService (makecoe.MakeCOE scripted.Remote) :=
  MakeCOE_ClusterService fixture.emptyCluster fixture.rangeOrder.

Definition World : Type :=
  client.World string (makecoe.MakeCOE scripted.Remote) memfs.Disk.

Definition disk : memfs.Disk :=
  [ "/home/u/.carina/clusters/acct/web";
    "/home/u/.carina/clusters/acct/web/ca.pem";
    "/home/u/.carina/clusters/acct/web/docker.env";
    "/home/u/.carina/clusters/acct/old";
    "/etc/passwd" ].

(** The remote knows no cluster: [Delete] answers 404. *)
Definition world : World :=
  client.mkWorld (fixture.fresh (fixture.remote [] (inr fixture.notFound)))
                 disk [].

Definition perform (fuel : nat) (op : client.Operation)
  : Prog World client.Outcome :=
  client.perform (svcC := service) fuel op.

(** A service with a session whose remote will answer the fetches with
    [answers], and the same service once it has journalled [calls]. *)
Definition polled (answers : list (result Cluster)) (calls : list Call)
  : makecoe.MakeCOE scripted.Remote :=
  makecoe.mkMakeCOE (Some carinaClient) None
                    (fixture.remote answers (inr fixture.notFound)) calls.

Definition polling (answers : list (result Cluster))
  : makecoe.MakeCOE scripted.Remote := polled answers [].

Definition fetch : Call := CallGet "c-42".
Definition pause : Call := CallSleep makecoe.pollingInterval.

End scenario.

(** ** [NewClient] and [initCache]

    The [Cache] type, [newCache], [Cache.load], [GetCredentialsDir] and
    [defaultCacheFilename] live in other files of the package; the
    initialisation is embedded over any choice of them. [Client.Error] only
    ever receives a [CacheUnavailableError]. *)

Module newclient.

Inductive CacheUnavailableError := mkCacheUnavailableError (cause : error).

(** The [Client] struct; [Cache] is a pointer, [nil] until [initCache] ran. *)
Record Client (C : Type) := mkClient {
  Cache : option C;
  Error : option CacheUnavailableError
}.
Arguments mkClient {C}.
Arguments Cache {C}.
Arguments Error {C}.

Section Init.
Context {C FS : Type} {fsC : FileSystem FS}.

(** [&Cache{}] *)
Variable emptyCache : C.
Variable newCache : string -> C.
(** [Cache.load]: the error, the cache as loaded and the disk after. *)
Variable load : C -> FS -> option error * C * FS.
Variable GetCredentialsDir : result string.
Variable defaultCacheFilename : result string.

(** The closure [disableCache] of [initCache]. *)
Definition disableCache (err : error) (client : Client C) : Client C :=
  mkClient (Some emptyCache) (Some (mkCacheUnavailableError err)).

Definition initCache (cacheEnabled : bool) (client : Client C) (d : FS)
  : Client C * FS :=
  if negb cacheEnabled then (mkClient (Some emptyCache) (Error client), d)
  else
    match GetCredentialsDir with
    | inr err => (disableCache err client, d)
    | inl bd =>
        let '(err, d) := os_MkdirAll bd d in
        match err with
        | Some err =>
            (disableCache
               (errors.Wrap err "Unable to create cache directory") client,
             d)
        | None =>
            match defaultCacheFilename with
            | inr err => (disableCache err client, d)
            | inl path =>
                let client := mkClient (Some (newCache path)) (Error client) in
                let '(err, loaded, d) := load (newCache path) d in
                let client := mkClient (Some loaded) (Error client) in
                match err with
                | Some err => (disableCache err client, d)
                | None => (client, d)
                end
            end
        end
    end.

Definition NewClient (cacheEnabled : bool) (d : FS) : Client C * FS :=
  let client := mkClient None None in
  initCache cacheEnabled client d.

End Init.

End newclient.

(** A cache for the examples: it remembers its file, and loading fails when
    the file is not on the disk. *)
Module cachefixture.

Definition Cache : Type := option string.

Definition emptyCache : Cache := None.

Definition newCache (path : string) : Cache := Some path.

Definition load (c : Cache) (d : memfs.Disk)
  : option error * Cache * memfs.Disk :=
  match c with
  | Some path =>
      if memfs.exists_ path d then (None, c, d)
      else (Some (PathError path true), c, d)
  | None => (None, c, d)
  end.

Definition home : string := "/home/u/.carina".

Definition NewClient (cacheEnabled : bool) (d : memfs.Disk)
  : newclient.Client Cache * memfs.Disk :=
  newclient.NewClient emptyCache newCache load
    (inl (home ++ "/clusters")) (inl (home ++ "/cache.json")) cacheEnabled d.

End cachefixture.

(** More worlds for the examples: remotes that refuse the authentication,
    the deletion or the credentials. *)
Module cases.

Definition refusal : error := ErrorString "invalid credentials".

Definition outage : error := ErrorString "connection refused".

Definition remote (auth : result CarinaClient)
           (gets : list (result Cluster)) (deleted : result Cluster)
           (credentials : result CredentialsBundle) : scripted.Remote :=
  scripted.mkRemote auth (inl (fixture.cluster "building")) gets deleted
                    (inl (fixture.cluster "active"))
                    (inl [fixture.cluster "active"])
                    (inl fixture.templates) credentials.

Definition bundle : result CredentialsBundle :=
  inl (mkBundle [("ca.pem", "CA"); ("docker.env", "ENV")]).

(** A service without a session, and a world around it. *)
Definition service (r : scripted.Remote) (calls : list Call)
  : makecoe.MakeCOE scripted.Remote :=
  makecoe.mkMakeCOE None None r calls.

Definition world (r : scripted.Remote) : scenario.World :=
  client.mkWorld (service r []) scenario.disk [].

Definition denied : scripted.Remote :=
  remote (inr refusal) [] (inr fixture.notFound) bundle.

Definition undeletable : scripted.Remote :=
  remote (inl carinaClient) [] (inr outage) bundle.

Definition without_credentials : scripted.Remote :=
  remote (inl carinaClient) [] (inr fixture.notFound) (inr outage).

Definition building_then_active : scripted.Remote :=
  remote (inl carinaClient)
         [inl (fixture.cluster "building"); inl (fixture.cluster "active")]
         (inr fixture.notFound) bundle.

End cases.

(** A disk that tells files from directories. As on a POSIX system, the
    stat of a path that runs through a regular file fails, and not with
    "does not exist" (ENOTDIR); the stat of any other absent path fails with
    "does not exist" (ENOENT). *)
Module posixfs.
Import Strings.

Inductive Kind := Dir | File.

Definition Disk := list (string * Kind).

Definition kind_of (p : string) (d : Disk) : option Kind :=
  match List.find (fun e => String.eqb (fst e) p) d with
  | Some (_, k) => Some k
  | None => None
  end.

(** Some regular file of the disk lies on the way to [q]. *)
Definition through_file (q : string) (d : Disk) : bool :=
  existsb (fun e => match snd e with
                    | File => HasPrefix q (fst e ++ "/")
                    | Dir => false
                    end) d.

Definition Stat (q : string) (d : Disk) : option error :=
  match kind_of q d with
  | Some _ => None
  | None =>
      if through_file q d then Some (PathError q false)
      else Some (PathError q true)
  end.

Definition add (p : string) (k : Kind) (d : Disk) : Disk :=
  match kind_of p d with
  | Some _ => d
  | None => (d ++ [(p, k)])%list
  end.

Definition MkdirAll (p : string) (d : Disk) : option error * Disk :=
  if through_file (p ++ "/") d then (Some (PathError p false), d)
  else
    let base := if HasPrefix p "/" then "/" else "" in
    (None,
     foldl (fun d q => add q Dir d) d
           (memfs.ancestors base (Split p "/"%char))).

Definition WriteFile (p contents : string) (d : Disk) : option error * Disk :=
  match kind_of p d with
  | Some Dir => (Some (PathError p false), d)
  | Some File => (None, d)
  | None =>
      if through_file p d then (Some (PathError p false), d)
      else (None, add p File d)
  end.

(** [os.RemoveAll] removes a file as well as a directory with all it
    holds. *)
Definition RemoveAll (p : string) (d : Disk) : option error * Disk :=
  (None, List.filter (fun e => negb (memfs.under p (fst e))) d).

End posixfs.

#[export] Instance posixfs_FileSystem : FileSystem posixfs.Disk := {|
  os_Stat := posixfs.Stat;
  os_MkdirAll := posixfs.MkdirAll;
  os_WriteFile := posixfs.WriteFile;
  os_RemoveAll := posixfs.RemoveAll
|}.

(** Modelled from the spec: the collaborators of the client that are
    declared outside [client.go], over the disk with files and directories;
    they are those of the other examples. *)
#[export] Instance posixfs_Collaborators
  : Collaborators string (makecoe.MakeCOE scripted.Remote) posixfs.Disk := {|
  NewClusterService := fun _ s =>
    makecoe.mkMakeCOE None None (makecoe.remote s) (makecoe.journal s);
  buildClusterCredentialsPath := fun account name customPath =>
    if String.eqb customPath "" then
      inl (filepath.Join (filepath.Join fixture.credentialsRoot account) name)
    else inl customPath;
  LoadAndVerify := fun path d =>
    match posixfs.Stat path d, posixfs.Stat (filepath.Join path "ca.pem") d with
    | None, None => None
    | _, _ => Some (ErrorString "invalid credentials bundle")
    end;
  getCredentialScriptPath := fun credentialsPath shell =>
    inl (filepath.Join credentialsPath "docker.env");
  sourceHelpString := fun shellScriptPath name shell =>
    "source " ++ shellScriptPath;
  filepath_Clean := filepath.Clean;
  filepath_Join := filepath.Join
|}.

(** A home directory with the credentials of "web" and a file of notes. *)
Module homedir.

Definition World : Type :=
  client.World string (makecoe.MakeCOE scripted.Remote) posixfs.Disk.

Definition notes : string := "/home/u/notes.txt".

Definition disk : posixfs.Disk :=
  [ ("/home", posixfs.Dir);
    ("/home/u", posixfs.Dir);
    (notes, posixfs.File);
    ("/home/u/.carina/clusters/acct/web", posixfs.Dir);
    ("/home/u/.carina/clusters/acct/web/ca.pem", posixfs.File) ].

Definition on (d : posixfs.Disk) : World :=
  client.mkWorld (fixture.fresh (fixture.remote [] (inr fixture.notFound)))
                 d [].

Definition world : World := on disk.

End homedir.

(** * Properties *)

(** ** Strings and globs on samples *)

Example glob_samples :
  glob.Glob "Kubernetes*" "Kubernetes-Small" = true /\
  glob.Glob "Kubernetes-S*" "Kubernetes-Large" = false /\
  glob.Glob "*-S*l" "Kubernetes-Small" = true /\
  glob.Glob "*Small" "Swarm-Small" = true /\
  glob.Glob "K*-*a*e" "Kubernetes-Large" = true /\
  glob.Glob "kubernetes-small" "Kubernetes-Small" = false /\
  glob.GlobI "kubernetes-small" "Kubernetes-Small" = true /\
  glob.GlobI "KUBE*" "Kubernetes-Small" = true.
Proof. repeat split; reflexivity. Qed.

Example Clean_samples :
  filepath.Clean "" = "." /\
  filepath.Clean "/" = "/" /\
  filepath.Clean "//" = "/" /\
  filepath.Clean "./" = "." /\
  filepath.Clean "/.." = "/" /\
  filepath.Clean "a/.." = "." /\
  filepath.Clean "/a/../.." = "/" /\
  filepath.Clean "a//b/./c/.." = "a/b" /\
  filepath.Clean "../../a" = "../../a" /\
  filepath.Clean "/home/u/.carina/clusters/acct/web/" = "/home/u/.carina/clusters/acct/web" /\
  filepath.Join "/creds/web" "ca.pem" = "/creds/web/ca.pem".
Proof. repeat split; reflexivity. Qed.

(** ** The make-coe service *)

Section MakeCOE_facts.
Context {B : Type} `{CarinaAPI B}.
Import makecoe.

Local Abbreviation Svc := (MakeCOE B).

Lemma eqb_status (s t : string) : String.eqb s t = true <-> s = t.
Proof. apply String.eqb_eq. Qed.

Lemma isDone_terminal (cluster : Cluster) :
  isDone cluster = true <-> terminal_status cluster.
Proof.
  unfold isDone, terminal_status.
  rewrite orb_true_iff, !eqb_status. reflexivity.
Qed.

Lemma isDone_pending (cluster : Cluster) :
  isDone cluster = false <-> ~ terminal_status cluster.
Proof.
  rewrite <- isDone_terminal. destruct (isDone cluster); split; congruence.
Qed.

(** With a session at hand, [init] does nothing. *)
Lemma init_ready (carina : Svc) h :
  client carina = Some h -> init carina = (None, carina).
Proof. intros Hc. unfold init. rewrite Hc. reflexivity. Qed.

(** A fetch through a service that holds a session: one [Get] reaches the
    remote, and its cluster comes back as it is. *)
Lemma GetCluster_ok (token : string) (carina : Svc) h fetched b' :
  client carina = Some h ->
  api_Get token (remote carina) = (inl fetched, b') ->
  GetCluster token carina =
    (inl fetched,
     mkMakeCOE (client carina) (clusterTypeCache carina) b'
               (journal carina ++ [CallGet token])).
Proof.
  intros Hc Hg. unfold GetCluster. rewrite (init_ready _ _ Hc).
  unfold call. rewrite Hg. reflexivity.
Qed.

(** A 404 from the remote reaches the caller of [GetCluster] as the bare
    [HTTPErr]. *)
Lemma GetCluster_not_found (token : string) (carina : Svc) h err httpErr b' :
  client carina = Some h ->
  api_Get token (remote carina) = (inr err, b') ->
  errors.Cause err = EHTTP httpErr ->
  StatusCode httpErr = http.StatusNotFound ->
  GetCluster token carina =
    (inr (EHTTP httpErr),
     mkMakeCOE (client carina) (clusterTypeCache carina) b'
               (journal carina ++ [CallGet token])).
Proof.
  intros Hc Hg Hcause Hcode. unfold GetCluster. rewrite (init_ready _ _ Hc).
  unfold call. rewrite Hg.
  unfold handleLibcarinaError, errors.Wrap. simpl errors.Cause.
  rewrite Hcause. unfold handleHTTPError. rewrite Hcode. reflexivity.
Qed.

(** *** The loop of [WaitUntilClusterIsActive] *)

(** Rounds that leave the loop waiting only use up fuel. *)
Lemma waitActiveLoop_rounds (cluster : Cluster) n (carina carina_n : Svc) :
  activeRounds (GetID cluster) n carina carina_n ->
  forall fuel,
    waitActiveLoop (n + fuel) cluster carina =
    waitActiveLoop fuel cluster carina_n.
Proof.
  induction 1 as [carina | n carina fetched carina1 carina' Hget Hnot _ IH];
    intros fuel.
  - reflexivity.
  - change (S n + fuel)%nat with (S (n + fuel)). simpl.
    rewrite Hget, Hnot. apply IH.
Qed.

(** Every return of the loop is the exit of a round that follows some
    number of waiting rounds: the round fetched a cluster that is done, or
    its fetch failed. *)
Lemma waitActiveLoop_inv (cluster : Cluster) fuel :
  forall (carina carina' : Svc) r,
    waitActiveLoop fuel cluster carina = Some (r, carina') ->
    exists n carina_n,
      (n < fuel)%nat /\
      activeRounds (GetID cluster) n carina carina_n /\
      ((exists fetched,
           GetCluster (GetID cluster) carina_n = (inl fetched, carina') /\
           isDone fetched = true /\ r = inl fetched) \/
       (exists err,
           GetCluster (GetID cluster) carina_n = (inr err, carina') /\
           r = inr err)).
Proof.
  induction fuel as [|fuel IH]; intros carina carina' r Hrun; simpl in Hrun.
  - discriminate.
  - destruct (GetCluster (GetID cluster) carina) as [[fetched|err] carina1]
      eqn:Hget.
    + destruct (isDone fetched) eqn:Hdone.
      * inversion Hrun; subst. exists O, carina.
        split; [lia|]. split; [constructor|]. left. eauto.
      * destruct (IH _ _ _ Hrun) as (n & carina_n & Hlt & Hrounds & Hexit).
        exists (S n), carina_n. split; [lia|].
        split; [econstructor; eauto|]. exact Hexit.
    + inversion Hrun; subst. exists O, carina.
      split; [lia|]. split; [constructor|]. right. eauto.
Qed.

Lemma waitActiveLoop_exit_ok (cluster : Cluster) n fuel
      (carina carina_n carina' : Svc) fetched :
  activeRounds (GetID cluster) n carina carina_n ->
  GetCluster (GetID cluster) carina_n = (inl fetched, carina') ->
  isDone fetched = true ->
  (n < fuel)%nat ->
  waitActiveLoop fuel cluster carina = Some (inl fetched, carina').
Proof.
  intros Hrounds Hget Hdone Hlt.
  replace fuel with (n + S (fuel - S n))%nat by lia.
  rewrite (waitActiveLoop_rounds _ _ _ _ Hrounds). simpl.
  rewrite Hget, Hdone. reflexivity.
Qed.

Lemma waitActiveLoop_exit_err (cluster : Cluster) n fuel
      (carina carina_n carina' : Svc) err :
  activeRounds (GetID cluster) n carina carina_n ->
  GetCluster (GetID cluster) carina_n = (inr err, carina') ->
  (n < fuel)%nat ->
  waitActiveLoop fuel cluster carina = Some (inr err, carina').
Proof.
  intros Hrounds Hget Hlt.
  replace fuel with (n + S (fuel - S n))%nat by lia.
  rewrite (waitActiveLoop_rounds _ _ _ _ Hrounds). simpl.
  rewrite Hget. reflexivity.
Qed.

(** A result, once reached, is the result for any larger fuel. *)
Lemma waitActiveLoop_more_fuel (cluster : Cluster) (fuel fuel' : nat)
      (carina carina' : Svc) r :
  waitActiveLoop fuel cluster carina = Some (r, carina') ->
  (fuel <= fuel')%nat ->
  waitActiveLoop fuel' cluster carina = Some (r, carina').
Proof.
  intros Hrun Hle.
  destruct (waitActiveLoop_inv _ _ _ _ _ Hrun)
    as (n & carina_n & Hlt & Hrounds & [(fetched & Hget & Hd & ->)
                                       |(err & Hget & ->)]).
  - eapply waitActiveLoop_exit_ok; eauto. lia.
  - eapply waitActiveLoop_exit_err; eauto. lia.
Qed.

(** While every round leaves the loop waiting, it never returns. *)
Lemma waitActiveLoop_still_waiting (cluster : Cluster) n
      (carina carina_n : Svc) :
  activeRounds (GetID cluster) n carina carina_n ->
  waitActiveLoop n cluster carina = None.
Proof.
  intros Hrounds.
  replace n with (n + 0)%nat by lia.
  rewrite (waitActiveLoop_rounds _ _ _ _ Hrounds). reflexivity.
Qed.

End MakeCOE_facts.

Section MakeCOE_claims.
Context {B : Type} `{CarinaAPI B}.
Import makecoe.

Local Abbreviation Svc := (MakeCOE B).

(** C10. For every state of the service, with or without a session,
    [MakeCOE.GetQuotas] returns the empty [Quotas] value and no error; it
    does not authenticate and sends nothing to the remote: the session,
    the remote and the journal of calls are as they were. *)
Theorem GetQuotas_empty_without_contact (carina : Svc) :
  GetQuotas carina = (inl mkQuotas, carina) /\
  client (snd (GetQuotas carina)) = client carina /\
  remote (snd (GetQuotas carina)) = remote carina /\
  journal (snd (GetQuotas carina)) = journal carina.
Proof. repeat split. Qed.

(** C8. A cluster whose status is "active", in any letter case, comes
    back from [WaitUntilClusterIsActive] as it is, whatever the fuel, and
    the service is left as it was: no fetch is journalled. *)
Theorem WaitUntilClusterIsActive_already_active
        (fuel : nat) (cluster : Cluster) (carina : Svc) :
  Strings.ToLower (GetStatus cluster) = "active" ->
  WaitUntilClusterIsActive fuel cluster carina = Some (inl cluster, carina).
Proof.
  intros Hactive. unfold WaitUntilClusterIsActive.
  assert (Hdone : isDone cluster = true)
    by (apply isDone_terminal; left; exact Hactive).
  rewrite Hdone. reflexivity.
Qed.

Lemma isDone_building (cluster : Cluster) :
  GetStatus cluster = "building" -> isDone cluster = false.
Proof. intros Hs. unfold isDone. rewrite Hs. reflexivity. Qed.

Lemma isDone_active (cluster : Cluster) :
  GetStatus cluster = "active" -> isDone cluster = true.
Proof. intros Hs. unfold isDone. rewrite Hs. reflexivity. Qed.

(** C5. The service holds a session and waits for a cluster that is not
    done. The remote answers the successive fetches with clusters whose
    statuses are "building", "building" and "active". Then, given fuel for
    three rounds, the wait returns the third cluster and no error, and its
    journal is fetch, sleep, fetch, sleep, fetch: after the first fetch it
    fetches again exactly twice, once after each sleep. *)
Theorem WaitUntilClusterIsActive_building_building_active
        (cluster c1 c2 c3 : Cluster) (carina : Svc) h (b1 b2 b3 : B)
        (fuel : nat) :
  client carina = Some h ->
  isDone cluster = false ->
  api_Get (GetID cluster) (remote carina) = (inl c1, b1) ->
  GetStatus c1 = "building" ->
  api_Get (GetID cluster) b1 = (inl c2, b2) ->
  GetStatus c2 = "building" ->
  api_Get (GetID cluster) b2 = (inl c3, b3) ->
  GetStatus c3 = "active" ->
  (3 <= fuel)%nat ->
  let token := GetID cluster in
  let polled := [CallGet token; CallSleep pollingInterval;
                 CallGet token; CallSleep pollingInterval;
                 CallGet token] in
  WaitUntilClusterIsActive fuel cluster carina =
    Some (inl c3,
          mkMakeCOE (client carina) (clusterTypeCache carina) b3
                    (journal carina ++ polled)) /\
  fetches polled = 3%nat /\
  refetches polled = 2%nat /\
  sleeps polled = 2%nat.
Proof.
  intros Hc Hpending H1 S1 H2 S2 H3 S3 Hfuel token polled.
  split; [|repeat split].
  unfold WaitUntilClusterIsActive. rewrite Hpending.
  destruct fuel as [|[|[|fuel]]]; try lia.
  simpl waitActiveLoop.
  rewrite (GetCluster_ok _ _ _ _ _ Hc H1), (isDone_building _ S1).
  unfold sleep at 1. simpl client. simpl clusterTypeCache.
  simpl remote. simpl journal.
  erewrite GetCluster_ok; [|exact Hc|exact H2].
  rewrite (isDone_building _ S2).
  unfold sleep. simpl client. simpl clusterTypeCache.
  simpl remote. simpl journal.
  erewrite GetCluster_ok; [|exact Hc|exact H3].
  rewrite (isDone_active _ S3).
  simpl client. simpl clusterTypeCache. simpl journal.
  subst polled token. rewrite <- !app_assoc. reflexivity.
Qed.

(** The other count of the same run: when the first "building" is the
    status of the cluster handed to the wait, two fetches answer
    "building" and "active", and the wait fetches exactly twice. *)
Lemma WaitUntilClusterIsActive_from_building
      (cluster c1 c2 : Cluster) (carina : Svc) h (b1 b2 : B) (fuel : nat) :
  client carina = Some h ->
  GetStatus cluster = "building" ->
  api_Get (GetID cluster) (remote carina) = (inl c1, b1) ->
  GetStatus c1 = "building" ->
  api_Get (GetID cluster) b1 = (inl c2, b2) ->
  GetStatus c2 = "active" ->
  (2 <= fuel)%nat ->
  WaitUntilClusterIsActive fuel cluster carina =
    Some (inl c2,
          mkMakeCOE (client carina) (clusterTypeCache carina) b2
                    (journal carina ++
                     [CallGet (GetID cluster); CallSleep pollingInterval;
                      CallGet (GetID cluster)])).
Proof.
  intros Hc S0 H1 S1 H2 S2 Hfuel.
  unfold WaitUntilClusterIsActive. rewrite (isDone_building _ S0).
  destruct fuel as [|[|fuel]]; try lia.
  simpl waitActiveLoop.
  rewrite (GetCluster_ok _ _ _ _ _ Hc H1), (isDone_building _ S1).
  unfold sleep. simpl client. simpl clusterTypeCache.
  simpl remote. simpl journal.
  erewrite GetCluster_ok; [|exact Hc|exact H2].
  rewrite (isDone_active _ S2).
  simpl client. simpl clusterTypeCache. simpl journal.
  rewrite <- !app_assoc. reflexivity.
Qed.

(** C6. [WaitUntilClusterIsActive] returns exactly in these cases: the
    cluster handed in is already in a terminal status (it comes back, no
    fetch); or, after some rounds that each fetched a cluster in no
    terminal status and slept, a round fetches a cluster whose status is
    "active" or "error" without regard to case, which is returned with no
    error, or a round's fetch fails, and its error is returned. A cluster
    in status "error" is thus a success value. *)
Theorem WaitUntilClusterIsActive_returns_iff
        (fuel : nat) (cluster : Cluster) (carina carina' : Svc)
        (r : result Cluster) :
  WaitUntilClusterIsActive fuel cluster carina = Some (r, carina') <->
  (terminal_status cluster /\ r = inl cluster /\ carina' = carina) \/
  (~ terminal_status cluster /\
   exists n carina_n,
     (n < fuel)%nat /\
     activeRounds (GetID cluster) n carina carina_n /\
     ((exists fetched,
          GetCluster (GetID cluster) carina_n = (inl fetched, carina') /\
          terminal_status fetched /\ r = inl fetched) \/
      (exists err,
          GetCluster (GetID cluster) carina_n = (inr err, carina') /\
          r = inr err))).
Proof.
  unfold WaitUntilClusterIsActive. split.
  - destruct (isDone cluster) eqn:Hdone; intros Hrun.
    + left. inversion Hrun; subst.
      split; [apply isDone_terminal; exact Hdone|]. split; reflexivity.
    + right. split; [apply isDone_pending; exact Hdone|].
      destruct (waitActiveLoop_inv _ _ _ _ _ Hrun)
        as (n & carina_n & Hlt & Hrounds & Hexit).
      exists n, carina_n. split; [exact Hlt|]. split; [exact Hrounds|].
      destruct Hexit as [(fetched & Hget & Hd & ->)|(err & Hget & ->)].
      * left. exists fetched. rewrite isDone_terminal in Hd. auto.
      * right. exists err. auto.
  - intros [(Hterm & -> & ->)|(Hpend & n & carina_n & Hlt & Hrounds & Hexit)].
    + apply isDone_terminal in Hterm. rewrite Hterm. reflexivity.
    + apply isDone_pending in Hpend. rewrite Hpend.
      destruct Hexit as [(fetched & Hget & Hd & ->)|(err & Hget & ->)].
      * apply isDone_terminal in Hd.
        eapply waitActiveLoop_exit_ok; eauto.
      * eapply waitActiveLoop_exit_err; eauto.
Qed.

End MakeCOE_claims.

Section MakeCOE_delete_wait.
Context {B : Type} `{CarinaAPI B}.
Import makecoe.

Local Abbreviation Svc := (MakeCOE B).

Lemma isDoneDeleted_pending (cluster : Cluster) :
  fst (isDoneDeleted cluster) = false ->
  isDoneDeleted cluster = (false, None).
Proof.
  unfold isDoneDeleted.
  destruct (String.eqb (Strings.ToLower (GetStatus cluster)) "error");
    simpl; intros Hf; [discriminate|]. rewrite Hf. reflexivity.
Qed.

Lemma isDoneDeleted_error (cluster : Cluster) :
  Strings.ToLower (GetStatus cluster) = "error" ->
  isDoneDeleted cluster = (true, Some deletionError).
Proof. intros Hs. unfold isDoneDeleted. rewrite Hs. reflexivity. Qed.

Lemma waitDeletedLoop_rounds (cluster : Cluster) n (carina carina_n : Svc) :
  deletedRounds (GetID cluster) n carina carina_n ->
  forall fuel,
    waitDeletedLoop (n + fuel) cluster carina =
    waitDeletedLoop fuel cluster carina_n.
Proof.
  induction 1 as [carina | n carina fetched carina1 carina' Hget Hnot _ IH];
    intros fuel.
  - reflexivity.
  - change (S n + fuel)%nat with (S (n + fuel)). simpl.
    rewrite Hget, (isDoneDeleted_pending _ Hnot). apply IH.
Qed.

(** One more round, whatever it does, after [n] waiting rounds. *)
Lemma waitDeletedLoop_last_round (cluster : Cluster) n fuel
      (carina carina_n : Svc) :
  deletedRounds (GetID cluster) n carina carina_n ->
  (n < fuel)%nat ->
  waitDeletedLoop fuel cluster carina =
  waitDeletedLoop (S (fuel - S n)) cluster carina_n.
Proof.
  intros Hrounds Hlt.
  replace fuel with (n + S (fuel - S n))%nat at 1 by lia.
  apply waitDeletedLoop_rounds. exact Hrounds.
Qed.

(** C7. The wait for a deletion is at a round that follows [n] waiting
    rounds. If the fetch of that round fails with an error whose cause is
    an HTTP 404, the wait returns no error. If it fetches a cluster whose
    status is "error" without regard to case, the wait returns the deletion
    error. If it fails with any other error, the wait returns that error,
    in the state the failed fetch left: nothing is fetched again. *)
Theorem WaitUntilClusterIsDeleted_fetch_outcomes
        (cluster : Cluster) (n fuel : nat) (carina carina_n : Svc) :
  fst (isDoneDeleted cluster) = false ->
  deletedRounds (GetID cluster) n carina carina_n ->
  (n < fuel)%nat ->
  (forall err carina',
      GetCluster (GetID cluster) carina_n = (inr err, carina') ->
      is_not_found err ->
      WaitUntilClusterIsDeleted fuel cluster carina = Some (None, carina')) /\
  (forall fetched carina',
      GetCluster (GetID cluster) carina_n = (inl fetched, carina') ->
      Strings.ToLower (GetStatus fetched) = "error" ->
      WaitUntilClusterIsDeleted fuel cluster carina =
        Some (Some deletionError, carina')) /\
  (forall err carina',
      GetCluster (GetID cluster) carina_n = (inr err, carina') ->
      ~ is_not_found err ->
      WaitUntilClusterIsDeleted fuel cluster carina =
        Some (Some err, carina')).
Proof.
  intros Hpending Hrounds Hlt.
  assert (Hstart : WaitUntilClusterIsDeleted fuel cluster carina =
                   waitDeletedLoop (S (fuel - S n)) cluster carina_n).
  { unfold WaitUntilClusterIsDeleted.
    rewrite (isDoneDeleted_pending _ Hpending).
    apply waitDeletedLoop_last_round; assumption. }
  rewrite Hstart. simpl waitDeletedLoop.
  split; [|split].
  - intros err carina' Hget (httpErr & Hcause & Hcode).
    rewrite Hget, Hcause, Hcode. reflexivity.
  - intros fetched carina' Hget Hstatus.
    rewrite Hget, (isDoneDeleted_error _ Hstatus). reflexivity.
  - intros err carina' Hget Hother. rewrite Hget.
    destruct (errors.Cause err) as [httpErr| | | | |] eqn:Hcause;
      try reflexivity.
    destruct (StatusCode httpErr =? http.StatusNotFound) eqn:Hcode;
      [|reflexivity].
    exfalso. apply Hother. exists httpErr. split; [exact Hcause|].
    apply Z.eqb_eq. exact Hcode.
Qed.

(** The cluster handed to the wait is looked at first: in status "error"
    it gives the deletion error, in status "deleted" success, and nothing
    is fetched. *)
Lemma WaitUntilClusterIsDeleted_immediate
      (fuel : nat) (cluster : Cluster) (carina : Svc) :
  (Strings.ToLower (GetStatus cluster) = "error" ->
   WaitUntilClusterIsDeleted fuel cluster carina =
     Some (Some deletionError, carina)) /\
  (Strings.ToLower (GetStatus cluster) = "deleted" ->
   WaitUntilClusterIsDeleted fuel cluster carina = Some (None, carina)).
Proof.
  unfold WaitUntilClusterIsDeleted, isDoneDeleted.
  split; intros Hs; rewrite Hs; reflexivity.
Qed.

End MakeCOE_delete_wait.

(** ** Template resolution *)

Section Template_resolution.
Context {B : Type} `{CarinaAPI B}.
Import makecoe.

Local Abbreviation Svc := (MakeCOE B).

Variable rangeOrder : gmap Z ClusterType -> list ClusterType.

(** The test the loop applies to each template. *)
Local Abbreviation matches pattern :=
  (fun m : ClusterType => glob.GlobI pattern (TypeName m)).

(** The loop, by the list of the templates that match: once a match is
    held, a second one is an error; without one, the first is taken. *)
Lemma lookupLoop_filter (pattern : string) (ms : list ClusterType) :
  forall held : option ClusterType,
    lookupLoop pattern ms held =
    match held, List.filter (matches pattern) ms with
    | _, [] => inl held
    | None, [m] => inl (Some m)
    | _, _ => inr (MultipleMatchingTemplatesError pattern)
    end.
Proof.
  induction ms as [|m ms IH]; intros held; simpl.
  - destruct held; reflexivity.
  - destruct (glob.GlobI pattern (TypeName m)); simpl.
    + destruct held as [x|].
      * reflexivity.
      * rewrite IH.
        destruct (List.filter (matches pattern) ms) as [|m' [|m'' rest]];
          reflexivity.
    + apply IH.
Qed.

Lemma filter_Permutation_bool {T} (f : T -> bool) (l l' : list T) :
  l ≡ₚ l' -> List.filter f l ≡ₚ List.filter f l'.
Proof.
  induction 1 as [|x l l' _ IH|x y l|l l' l'' _ IH1 _ IH2]; simpl.
  - reflexivity.
  - destruct (f x); [constructor|]; exact IH.
  - destruct (f x), (f y); try reflexivity. constructor.
  - etransitivity; eassumption.
Qed.

(** The outcome of the loop does not depend on the order of the visit. *)
Lemma lookupLoop_order (pattern : string) (ms ms' : list ClusterType) :
  ms ≡ₚ ms' ->
  lookupLoop pattern ms None =
  match List.filter (matches pattern) ms' with
  | [] => inl None
  | [m] => inl (Some m)
  | _ => inr (MultipleMatchingTemplatesError pattern)
  end.
Proof.
  intros Hperm. rewrite lookupLoop_filter.
  pose proof (filter_Permutation_bool (matches pattern) _ _ Hperm) as Hf.
  destruct (List.filter (matches pattern) ms') as [|m' [|m'' rest']].
  - apply Permutation_nil_r in Hf. rewrite Hf. reflexivity.
  - apply Permutation_singleton_r in Hf. rewrite Hf. reflexivity.
  - pose proof (Permutation_length Hf) as Hlen.
    destruct (List.filter (matches pattern) ms) as [|m [|m0 rest]];
      simpl in Hlen; try discriminate. reflexivity.
Qed.

(** C4. The cache of the service holds the templates [cache], read from
    the remote now or kept from before. Each name is tested against the
    pattern with [GlobI], the glob that folds case. Whatever the order in
    which [range] visits the map: with no matching template the lookup
    fails with "Could not find template named" and the pattern; with one
    it returns that template; with two or more it fails with
    [MultipleMatchingTemplatesError] carrying the pattern, and returns
    none of the matches. *)
Theorem lookupClusterTypeByName_by_matches
        (pattern : string) (carina carina' : Svc)
        (cache : gmap Z ClusterType) :
  (forall m, rangeOrder m ≡ₚ (map_to_list m).*2) ->
  getClusterTypeCache carina = (inl cache, carina') ->
  lookupClusterTypeByName rangeOrder pattern carina =
    (match List.filter (matches pattern) (map_to_list cache).*2 with
     | [] => inr (ErrorString ("Could not find template named " ++ pattern))
     | [m] => inl m
     | _ => inr (MultipleMatchingTemplatesError pattern)
     end,
     carina').
Proof.
  intros Horder Hcache. unfold lookupClusterTypeByName. rewrite Hcache.
  rewrite (lookupLoop_order pattern _ _ (Horder cache)).
  destruct (List.filter (matches pattern) (map_to_list cache).*2)
    as [|m [|m' rest]]; reflexivity.
Qed.

(** The cache filled from a listing without repeated IDs holds the listed
    templates, each once. *)
Lemma foldl_insert_values (l : list ClusterType) :
  forall m : gmap Z ClusterType,
    NoDup (TypeID <$> l) ->
    (forall c, c ∈ l -> m !! TypeID c = None) ->
    (map_to_list
       (foldl (fun m c => <[TypeID c := c]> m) m l)).*2
    ≡ₚ ((map_to_list m).*2 ++ l)%list.
Proof.
  induction l as [|c l IH]; intros m Hnd Hfresh; simpl.
  - rewrite app_nil_r. reflexivity.
  - rewrite fmap_cons in Hnd. apply NoDup_cons in Hnd as [Hc Hnd].
    rewrite IH.
    + rewrite map_to_list_insert by (apply Hfresh; left).
      simpl. apply Permutation_middle.
    + exact Hnd.
    + intros c' Hin. rewrite lookup_insert_ne.
      * apply Hfresh. right. exact Hin.
      * intros Heq. apply Hc. rewrite Heq.
        apply list_elem_of_fmap. exists c'. split; [reflexivity|exact Hin].
Qed.

Lemma fillCache_values (l : list ClusterType) :
  NoDup (TypeID <$> l) -> (map_to_list (fillCache l)).*2 ≡ₚ l.
Proof.
  intros Hnd. unfold fillCache.
  rewrite foldl_insert_values; [|exact Hnd|intros; apply lookup_empty].
  rewrite map_to_list_empty. reflexivity.
Qed.

(** Hence, on a first lookup through a service that holds a session, the
    outcome is decided by the remote's listing. *)
Lemma lookupClusterTypeByName_first (pattern : string) (carina : Svc) h
      (listed : list ClusterType) b' :
  (forall m, rangeOrder m ≡ₚ (map_to_list m).*2) ->
  client carina = Some h ->
  clusterTypeCache carina = None ->
  api_ListClusterTypes (remote carina) = (inl listed, b') ->
  NoDup (TypeID <$> listed) ->
  fst (lookupClusterTypeByName rangeOrder pattern carina) =
    match List.filter (matches pattern) listed with
    | [] => inr (ErrorString ("Could not find template named " ++ pattern))
    | [m] => inl m
    | _ => inr (MultipleMatchingTemplatesError pattern)
    end.
Proof.
  intros Horder Hc Hcache Hlist Hnd.
  unfold lookupClusterTypeByName, getClusterTypeCache, listClusterTypes, call.
  rewrite Hcache, Hlist.
  assert (Hperm : rangeOrder (fillCache listed) ≡ₚ listed)
    by (rewrite Horder; apply fillCache_values; exact Hnd).
  rewrite (lookupLoop_order pattern _ _ Hperm).
  destruct (List.filter (matches pattern) listed) as [|m [|m' rest]];
    reflexivity.
Qed.

End Template_resolution.

(** The four cases of the specification, run on the three templates
    "Kubernetes-Small", "Kubernetes-Large" and "Swarm-Small". *)
Example template_resolution_samples :
  let carina := fixture.ready (fixture.remote [] (inr fixture.notFound)) in
  let resolve pattern :=
    fst (makecoe.lookupClusterTypeByName fixture.rangeOrder pattern carina) in
  resolve "Kubernetes*" = inr (MultipleMatchingTemplatesError "Kubernetes*") /\
  resolve "Kubernetes-S*" =
    inl (mkClusterType 1 "Kubernetes-Small" "kubernetes" "lxc") /\
  resolve "Nonexistent*" =
    inr (ErrorString "Could not find template named Nonexistent*") /\
  resolve "kubernetes-small" =
    inl (mkClusterType 1 "Kubernetes-Small" "kubernetes" "lxc").
Proof. repeat split; vm_compute; reflexivity. Qed.

(** ** The client: credentials on disk *)

Section Credentials.
Context {A S FS : Type}.
Context {svcC : ClusterService S} {fsC : FileSystem FS}
        {colC : Collaborators A S FS}.
Import client.

Local Abbreviation W := (World A S FS).

(** The three paths at which nothing may be deleted. *)
Local Abbreviation unsafe p := (p = "" \/ p = "." \/ p = "/").

Lemma unsafe_guard (p : string) :
  (String.eqb p "" || String.eqb p "." || String.eqb p "/") = true <->
  unsafe p.
Proof.
  rewrite !orb_true_iff, !String.eqb_eq. tauto.
Qed.

(** When the path cannot be resolved, the error is returned and nothing
    is touched. *)
Lemma DeleteClusterCredentials_unresolved
      (account : A) (name customPath : string) (w : W) err :
  buildClusterCredentialsPath account name customPath = inr err ->
  DeleteClusterCredentials account name customPath w = (Some err, w).
Proof. intros Hb. unfold DeleteClusterCredentials. rewrite Hb. reflexivity. Qed.

(** The cases of [DeleteClusterCredentials], told apart as the code tells
    them apart. The credentials path of an account, a cluster name and an
    override directory resolves to [resolved], and [p] is that path
    cleaned. If [p] is empty, "." or "/", the deletion is refused with an
    error and the world is as before. Otherwise: if [os.Stat] reports that
    [p] does not exist, there is no error and the world is as before; if it
    does not, but reports that [p/ca.pem] does not exist, there is an error
    and the world is as before; in every other case, also when the stat of
    [p/ca.pem] failed for another reason, [os.RemoveAll p] runs on the disk,
    and its error, if any, is returned wrapped. *)
Theorem DeleteClusterCredentials_cases
        (account : A) (name customPath : string) (w : W) (resolved : string) :
  buildClusterCredentialsPath account name customPath = inl resolved ->
  let p := filepath_Clean resolved in
  let missing q := os.IsNotExist (os_Stat q (disk w)) in
  (unsafe p ->
   DeleteClusterCredentials account name customPath w =
     (Some (ErrorString
              "Path to cluster is empty, the current directory, or a root path, not deleting"),
      w)) /\
  (~ unsafe p -> missing p = true ->
   DeleteClusterCredentials account name customPath w = (None, w)) /\
  (~ unsafe p -> missing p = false ->
   missing (filepath_Join p "ca.pem") = true ->
   DeleteClusterCredentials account name customPath w =
     (Some (ErrorString
              "Path to cluster credentials exists but not the ca.pem, not deleting"),
      w)) /\
  (~ unsafe p -> missing p = false ->
   missing (filepath_Join p "ca.pem") = false ->
   DeleteClusterCredentials account name customPath w =
     (match fst (os_RemoveAll p (disk w)) with
      | Some err =>
          Some (Wrapped err "Unable to delete the credentials on disk")
      | None => None
      end,
      mkWorld (service w) (snd (os_RemoveAll p (disk w))) (events w))).
Proof.
  intros Hb p missing. unfold DeleteClusterCredentials. rewrite Hb.
  fold p. subst missing.
  destruct (String.eqb p "" || String.eqb p "." || String.eqb p "/")
    eqn:Hguard.
  - apply unsafe_guard in Hguard.
    split; [reflexivity|]. repeat split; intros Hsafe; contradiction.
  - assert (Hsafe : ~ unsafe p).
    { intros Hu. apply unsafe_guard in Hu. congruence. }
    split; [intros Hu; contradiction|].
    split; [intros _ Hmiss; rewrite Hmiss; reflexivity|].
    split.
    + intros _ Hthere Hca. rewrite Hthere, Hca. reflexivity.
    + intros _ Hthere Hca. rewrite Hthere, Hca.
      unfold on_disk. destruct (os_RemoveAll p (disk w)) as [[err|] d'];
        reflexivity.
Qed.

(** Deleting credentials never writes to the record of events. *)
Lemma DeleteClusterCredentials_events
      (account : A) (name customPath : string) (w : W) :
  events (snd (DeleteClusterCredentials account name customPath w)) =
  events w /\
  service (snd (DeleteClusterCredentials account name customPath w)) =
  service w.
Proof.
  unfold DeleteClusterCredentials.
  destruct (buildClusterCredentialsPath account name customPath) as [p|err];
    [|split; reflexivity].
  destruct (_ || _); [split; reflexivity|].
  destruct (os.IsNotExist _); [split; reflexivity|].
  destruct (os.IsNotExist _); [split; reflexivity|].
  unfold on_disk. destruct (os_RemoveAll _ _) as [[err|] d'];
    split; reflexivity.
Qed.

End Credentials.

(** The cleaned path is never empty, so the first of the three guards of
    [DeleteClusterCredentials] is met through "." and "/" only. *)
Lemma Clean_not_empty (path : string) : filepath.Clean path <> "".
Proof.
  unfold filepath.Clean.
  destruct (String.eqb path ""); [discriminate|].
  destruct (Strings.HasPrefix path "/"); [discriminate|].
  destruct (String.eqb _ "") eqn:He; [discriminate|].
  intros Heq. rewrite Heq in He. discriminate.
Qed.

(** On the disk in memory, nothing at or under a removed path is left, and
    every other path stays. *)
Lemma memfs_RemoveAll_spec (p q : string) (d : memfs.Disk) :
  q ∈ snd (memfs.RemoveAll p d) <-> q ∈ d /\ memfs.under p q = false.
Proof.
  unfold memfs.RemoveAll. simpl.
  rewrite list_elem_of_In, filter_In, <- list_elem_of_In.
  rewrite negb_true_iff. reflexivity.
Qed.

(** The cases of the deletion of credentials, run on the disk of the
    scenario: the root and the current directory are refused; a cluster
    without a directory is a success that leaves the disk alone; a directory
    without [ca.pem] is an error that leaves the disk alone; the bundle of
    "web" is removed with everything under it. *)
Example DeleteClusterCredentials_samples :
  let run name customPath :=
    let '(err, w) :=
      client.DeleteClusterCredentials "acct" name customPath scenario.world in
    (err, client.disk w) in
  run "web" "/" =
    (Some (ErrorString
             "Path to cluster is empty, the current directory, or a root path, not deleting"),
     scenario.disk) /\
  run "web" "/home/.." = run "web" "/" /\
  run "web" "./" = run "web" "/" /\
  run "none" "" = (None, scenario.disk) /\
  run "old" "" =
    (Some (ErrorString
             "Path to cluster credentials exists but not the ca.pem, not deleting"),
     scenario.disk) /\
  run "web" "" =
    (None, ["/home/u/.carina/clusters/acct/old"; "/etc/passwd"]).
Proof. repeat split; vm_compute; reflexivity. Qed.

(** ** The client over the make-coe service: deleting a cluster *)

Section Delete_not_found.
Context {B A FS : Type}.
Context {apiC : CarinaAPI B} {fsC : FileSystem FS}
        {colC : Collaborators A (makecoe.MakeCOE B) FS}.
Variable newCluster : Cluster.
Variable rangeOrder : gmap Z ClusterType -> list ClusterType.
Import client.

Local Abbreviation Svc := (makecoe.MakeCOE B).
Local Abbreviation W := (World A Svc FS).
Local Abbreviation makeCOE := (MakeCOE_ClusterService newCluster rangeOrder).

(** The service's [DeleteCluster] on a 404: the session is opened if
    need be, one [Delete] reaches the remote, and the answer is the cluster
    of [newCluster()] with the status "deleted", without an error. *)
Lemma makecoe_DeleteCluster_not_found
      (token : string) (carina carina1 : Svc) err b' :
  makecoe.init carina = (None, carina1) ->
  api_Delete token (makecoe.remote carina1) = (inr err, b') ->
  makecoe.is_not_found err ->
  makecoe.DeleteCluster newCluster token carina =
    (inl (with_Status newCluster "deleted"),
     makecoe.mkMakeCOE (makecoe.client carina1)
                       (makecoe.clusterTypeCache carina1) b'
                       (makecoe.journal carina1 ++ [CallDelete token])).
Proof.
  intros Hinit Hdel (httpErr & Hcause & Hcode).
  unfold makecoe.DeleteCluster. rewrite Hinit.
  unfold makecoe.call. rewrite Hdel, Hcause, Hcode. reflexivity.
Qed.

(** C2. The service the account builds opens its session, and the remote
    answers [Delete] with an error whose cause is an HTTP 404. Then the
    service's [DeleteCluster] returns, with no error, the cluster of
    [newCluster()] with its status set to "deleted". The client, with or
    without [waitUntilDeleted], goes on to [DeleteClusterCredentials] for
    the same account and name with no override directory, on the disk as
    it was; no [Get] is sent to the remote in between; what the client
    returns is the outcome of that deletion, and [SaveAccount] runs
    last. *)
Theorem DeleteCluster_not_found_is_success
        (fuel : nat) (account : A) (name : string) (waitUntilDeleted : bool)
        (w : W) (carina1 : Svc) err b' :
  let carina := NewClusterService account (service w) in
  makecoe.init carina = (None, carina1) ->
  api_Delete name (makecoe.remote carina1) = (inr err, b') ->
  makecoe.is_not_found err ->
  let cluster := with_Status newCluster "deleted" in
  let carina2 :=
    makecoe.mkMakeCOE (makecoe.client carina1)
                      (makecoe.clusterTypeCache carina1) b'
                      (makecoe.journal carina1 ++ [CallDelete name]) in
  let invoked :=
    if waitUntilDeleted
    then [Invoke MDeleteCluster; Invoke MWaitUntilClusterIsDeleted]
    else [Invoke MDeleteCluster] in
  let w2 :=
    mkWorld carina2 (disk w) (events w ++ CacheApply account :: invoked) in
  makecoe.DeleteCluster newCluster name carina = (inl cluster, carina2) /\
  GetStatus cluster = "deleted" /\
  DeleteCluster (svcC := makeCOE) fuel account name waitUntilDeleted w =
    Some (wrapClientError
            (fst (DeleteClusterCredentials account name "" w2)),
          SaveAccount account
            (snd (DeleteClusterCredentials account name "" w2))).
Proof.
  intros carina Hinit Hdel Hnf cluster carina2 invoked w2.
  pose proof (makecoe_DeleteCluster_not_found name carina carina1 err b'
                Hinit Hdel Hnf) as Hsvc.
  split; [exact Hsvc|]. split; [reflexivity|].
  unfold DeleteCluster, with_defer, buildContainerService, invoke, emit.
  simpl service. simpl disk. simpl events. simpl svc_DeleteCluster.
  fold carina. rewrite Hsvc.
  destruct waitUntilDeleted.
  - unfold invoke_wait. simpl service. simpl svc_WaitUntilClusterIsDeleted.
    unfold makecoe.WaitUntilClusterIsDeleted. simpl.
    subst w2 invoked carina2 cluster. rewrite <- !app_assoc. simpl.
    destruct (DeleteClusterCredentials account name "" _) as [e w3].
    reflexivity.
  - subst w2 invoked carina2 cluster. rewrite <- !app_assoc. simpl.
    destruct (DeleteClusterCredentials account name "" _) as [e w3].
    reflexivity.
Qed.

End Delete_not_found.

(** ** The client: when the account is saved *)

Section Save.
Context {A S FS : Type}.
Context {svcC : ClusterService S} {fsC : FileSystem FS}
        {colC : Collaborators A S FS}.
Import client.

Local Abbreviation W := (World A S FS).

(** A function with a deferred call returns exactly when its body does, in
    the state the deferred call leaves. *)
Lemma with_defer_inv {T} (f : W -> W) (body : Prog W T) (w w' : W) (r : T) :
  with_defer f body w = Some (r, w') ->
  exists w1, body w = Some (r, w1) /\ w' = f w1.
Proof.
  unfold with_defer. destruct (body w) as [[r1 w1]|]; [|discriminate].
  intros Heq. inversion Heq; subst. eauto.
Qed.

(** [quiet] is a preorder, and every step of a body other than the deferred
    call is quiet. *)
Lemma quiet_same (w w' : W) : events w' = events w -> quiet w w'.
Proof.
  intros He. exists []. rewrite app_nil_r. split; [exact He|constructor].
Qed.

Lemma quiet_refl (w : W) : quiet w w.
Proof. apply quiet_same. reflexivity. Qed.

Lemma quiet_trans (w1 w2 w3 : W) : quiet w1 w2 -> quiet w2 w3 -> quiet w1 w3.
Proof.
  intros (m1 & E1 & F1) (m2 & E2 & F2). exists (m1 ++ m2)%list.
  split; [rewrite E2, E1, app_assoc; reflexivity|].
  apply Forall_app. split; assumption.
Qed.

Lemma quiet_invoke {T} (m : Method) (f : State S T) (w w' : W) r :
  invoke m f w = (r, w') -> quiet w w'.
Proof.
  unfold invoke. destruct (f (service w)) as [r1 s']. intros Heq.
  inversion Heq; subst. exists [Invoke m]. split; [reflexivity|].
  repeat constructor.
Qed.

Lemma quiet_invoke_wait {T} (m : Method) (f : Prog S T) (w w' : W) r :
  invoke_wait m f w = Some (r, w') -> quiet w w'.
Proof.
  unfold invoke_wait. destruct (f (service w)) as [[r1 s']|]; [|discriminate].
  intros Heq. inversion Heq; subst. exists [Invoke m]. split; [reflexivity|].
  repeat constructor.
Qed.

Lemma quiet_on_disk {T} (f : FS -> T * FS) (w w' : W) r :
  on_disk f w = (r, w') -> quiet w w'.
Proof.
  unfold on_disk. destruct (f (disk w)) as [r1 d']. intros Heq.
  inversion Heq; subst. apply quiet_same. reflexivity.
Qed.

Lemma quiet_writeFiles (p : string) (files : list (string * string)) :
  forall (w w' : W) r, writeFiles p files w = (r, w') -> quiet w w'.
Proof.
  induction files as [|[file contents] rest IH]; intros w w' r; simpl.
  - intros Heq. inversion Heq; subst. apply quiet_refl.
  - destruct (on_disk _ w) as [[err|] w1] eqn:Hd.
    + intros Heq. inversion Heq; subst. eapply quiet_on_disk; eauto.
    + intros Hrest. eapply quiet_trans; [eapply quiet_on_disk; eauto|].
      eapply IH; eauto.
Qed.

Lemma quiet_thenWaitUntilActive (fuel : nat) (wait : bool)
      (r r' : result Cluster) (w w' : W) :
  thenWaitUntilActive fuel wait r w = Some (r', w') -> quiet w w'.
Proof.
  unfold thenWaitUntilActive.
  destruct wait, r as [c|e];
    try (intros Heq; inversion Heq; subst; apply quiet_refl).
  destruct (invoke_wait _ _ w) as [[r1 w1]|] eqn:Hw; [|discriminate].
  intros Heq. inversion Heq; subst. eapply quiet_invoke_wait; eauto.
Qed.

(** A body that is quiet once the service is built, followed by the
    deferred [SaveAccount]. *)
Lemma saved_last_intro (a : A) (w w1 : W) :
  quiet (snd (buildContainerService a w)) w1 ->
  saved_last a w (SaveAccount a w1).
Proof.
  intros (mid & He & Hq). exists mid. split; [|exact Hq].
  unfold SaveAccount, emit. simpl in *. rewrite He.
  rewrite <- !app_assoc. reflexivity.
Qed.

Lemma quiet_DeleteClusterCredentials a name customPath (w w' : W) r :
  DeleteClusterCredentials a name customPath w = (r, w') -> quiet w w'.
Proof.
  intros Heq. apply quiet_same.
  pose proof (DeleteClusterCredentials_events a name customPath w) as [He _].
  rewrite Heq in He. exact He.
Qed.

(** Chains the quiet steps recorded in the hypotheses. *)
Ltac quiet_step w w1 lemma :=
  apply (quiet_trans w w1); [exact lemma|].

Ltac quiet_chain :=
  repeat match goal with
         | H : Some _ = Some _ |- _ => inversion H; subst; clear H
         | H : (_, _) = (_, _) |- _ => inversion H; subst; clear H
         | |- quiet ?w ?w => apply quiet_refl
         | H : DeleteClusterCredentials _ _ _ ?w = (_, ?w1) |- quiet ?w _ =>
             quiet_step w w1 (quiet_DeleteClusterCredentials _ _ _ _ _ _ H);
             clear H
         | H : invoke _ _ ?w = (_, ?w1) |- quiet ?w _ =>
             quiet_step w w1 (quiet_invoke _ _ _ _ _ H); clear H
         | H : on_disk _ ?w = (_, ?w1) |- quiet ?w _ =>
             quiet_step w w1 (quiet_on_disk _ _ _ _ H); clear H
         | H : writeFiles _ _ ?w = (_, ?w1) |- quiet ?w _ =>
             quiet_step w w1 (quiet_writeFiles _ _ _ _ _ H); clear H
         | H : invoke_wait _ _ ?w = Some (_, ?w1) |- quiet ?w _ =>
             quiet_step w w1 (quiet_invoke_wait _ _ _ _ _ H); clear H
         | H : thenWaitUntilActive _ _ _ ?w = Some (_, ?w1) |- quiet ?w _ =>
             quiet_step w w1 (quiet_thenWaitUntilActive _ _ _ _ _ _ H);
             clear H
         end.

(** Cases on every scrutinee of the body in [H], innermost first. *)
Ltac break_body H :=
  repeat match type of H with
         | context [match ?x with _ => _ end] =>
             lazymatch x with
             | context [match _ with _ => _ end] => fail
             | _ => destruct x eqn:?
             end
         end.

(** The proof for an operation whose body opens with the deferred
    [SaveAccount] and builds the service next. *)
Ltac saves_by_defer a w :=
  let Hrun := fresh "Hrun" in
  let Hbody := fresh "Hbody" in
  let w1 := fresh "w1" in
  intros Hrun;
  apply with_defer_inv in Hrun as (w1 & Hbody & ->);
  apply saved_last_intro;
  change (buildContainerService a w)
    with (inl tt : result unit, snd (buildContainerService a w)) in Hbody;
  cbv beta iota zeta in Hbody;
  break_body Hbody; try discriminate; quiet_chain.

(** Each of the eleven operations that defer the save. *)
Lemma GetQuotas_saves a (w w' : W) r :
  GetQuotas a w = Some (r, w') -> saved_last a w w'.
Proof. unfold GetQuotas. saves_by_defer a w. Qed.

Lemma CreateCluster_saves fuel a name template nodes wait (w w' : W) r :
  CreateCluster fuel a name template nodes wait w = Some (r, w') ->
  saved_last a w w'.
Proof. unfold CreateCluster. saves_by_defer a w. Qed.

Lemma DownloadClusterCredentials_saves a name customPath (w w' : W) r :
  DownloadClusterCredentials a name customPath w = Some (r, w') ->
  saved_last a w w'.
Proof. unfold DownloadClusterCredentials. saves_by_defer a w. Qed.

Lemma ListClusters_saves a (w w' : W) r :
  ListClusters a w = Some (r, w') -> saved_last a w w'.
Proof. unfold ListClusters. saves_by_defer a w. Qed.

Lemma ListClusterTemplates_saves a nameFilter (w w' : W) r :
  ListClusterTemplates a nameFilter w = Some (r, w') -> saved_last a w w'.
Proof. unfold ListClusterTemplates. saves_by_defer a w. Qed.

Lemma GetCluster_saves fuel a name wait (w w' : W) r :
  GetCluster fuel a name wait w = Some (r, w') -> saved_last a w w'.
Proof. unfold GetCluster. saves_by_defer a w. Qed.

Lemma GrowCluster_saves fuel a name nodes wait (w w' : W) r :
  GrowCluster fuel a name nodes wait w = Some (r, w') -> saved_last a w w'.
Proof. unfold GrowCluster. saves_by_defer a w. Qed.

Lemma ResizeCluster_saves fuel a name nodes wait (w w' : W) r :
  ResizeCluster fuel a name nodes wait w = Some (r, w') -> saved_last a w w'.
Proof. unfold ResizeCluster. saves_by_defer a w. Qed.

Lemma RebuildCluster_saves fuel a name wait (w w' : W) r :
  RebuildCluster fuel a name wait w = Some (r, w') -> saved_last a w w'.
Proof. unfold RebuildCluster. saves_by_defer a w. Qed.

Lemma SetAutoScale_saves a name value (w w' : W) r :
  SetAutoScale a name value w = Some (r, w') -> saved_last a w w'.
Proof. unfold SetAutoScale. saves_by_defer a w. Qed.

Lemma DeleteCluster_saves fuel a name wait (w w' : W) r :
  DeleteCluster fuel a name wait w = Some (r, w') -> saved_last a w w'.
Proof. unfold DeleteCluster. saves_by_defer a w. Qed.

(** [GetSourceCommand] has no deferred call of its own. *)
Lemma GetSourceCommand_valid_bundle a shell name customPath (w w' : W) r :
  LoadAndVerify (firstCredentialsPath a name customPath) (disk w) = None ->
  GetSourceCommand a shell name customPath w = Some (r, w') -> w' = w.
Proof.
  unfold GetSourceCommand, firstCredentialsPath. intros Hvalid Hrun.
  rewrite Hvalid in Hrun.
  destruct (getCredentialScriptPath _ shell); inversion Hrun; reflexivity.
Qed.

Lemma GetSourceCommand_download a shell name customPath (w w' : W) r err :
  LoadAndVerify (firstCredentialsPath a name customPath) (disk w) = Some err ->
  GetSourceCommand a shell name customPath w = Some (r, w') ->
  saved_last a w w'.
Proof.
  unfold GetSourceCommand, firstCredentialsPath. intros Hbad Hrun.
  rewrite Hbad in Hrun.
  destruct (DownloadClusterCredentials a name customPath w)
    as [[[p|e] w1]|] eqn:Hd; [| |discriminate].
  - destruct (getCredentialScriptPath p shell); inversion Hrun; subst;
      eapply DownloadClusterCredentials_saves; eauto.
  - inversion Hrun; subst. eapply DownloadClusterCredentials_saves; eauto.
Qed.

Lemma returning_inv {T} (f : T -> Outcome) (m : Prog W T) (w w' : W) out :
  returning f m w = Some (out, w') ->
  exists r, m w = Some (r, w') /\ out = f r.
Proof.
  unfold returning. destruct (m w) as [[r w1]|]; [|discriminate].
  intros Heq. inversion Heq; subst. eauto.
Qed.

Lemma thenWaitUntilActive_no_wait fuel (r : result Cluster) (w : W) :
  thenWaitUntilActive fuel false r w = Some (wrapResult r, w).
Proof. reflexivity. Qed.

(** Without a wait, every operation returns. *)
Lemma perform_returns (fuel : nat) (op : Operation) (w : W) :
  may_wait op = false -> exists out w', perform fuel op w = Some (out, w').
Proof.
  intros Hnw.
  destruct op; simpl in Hnw; subst;
    unfold perform, returning, lift, GetQuotas, CreateCluster,
      GetSourceCommand, DownloadClusterCredentials, ListClusters,
      ListClusterTemplates, GetCluster, GrowCluster, ResizeCluster,
      RebuildCluster, SetAutoScale, DeleteCluster, with_defer,
      buildContainerService;
    cbv beta iota zeta;
    repeat match goal with
           | |- context [thenWaitUntilActive _ false _ _] =>
               rewrite thenWaitUntilActive_no_wait
           | |- context [match ?x with _ => _ end] =>
               lazymatch x with
               | context [match _ with _ => _ end] => fail
               | _ => destruct x eqn:?
               end
           end;
    eauto.
Qed.

(** C1, amended. An operation that does not wait always returns. Whenever
    an operation returns, with a result or with an error: if it is one of
    the eleven whose body opens with the deferred [SaveAccount] (all but
    [GetSourceCommand] and [DeleteClusterCredentials]), the cache was
    applied to the account first and [SaveAccount] ran last, once.
    [GetSourceCommand] saves the account, in the same way, only when the
    bundle on disk does not verify and it downloads the credentials again;
    with a valid bundle it leaves the world untouched.
    [DeleteClusterCredentials] records nothing. *)
Theorem SaveAccount_runs_last_where_deferred
        (fuel : nat) (op : Operation) (w : W) :
  (may_wait op = false ->
   exists out w', perform fuel op w = Some (out, w')) /\
  (forall out w',
      perform fuel op w = Some (out, w') ->
      match op with
      | OpGetSourceCommand a shell name customPath =>
          match LoadAndVerify (firstCredentialsPath a name customPath)
                              (disk w) with
          | None => w' = w
          | Some _ => saved_last a w w'
          end
      | OpDeleteClusterCredentials a name customPath =>
          events w' = events w
      | _ => saved_last (account_of op) w w'
      end).
Proof.
  split; [apply perform_returns|].
  intros out w' Hrun.
  destruct op; simpl in Hrun;
    apply returning_inv in Hrun as (r & Hrun & _); simpl account_of.
  - eapply GetQuotas_saves; eauto.
  - eapply CreateCluster_saves; eauto.
  - eapply DownloadClusterCredentials_saves; eauto.
  - destruct (LoadAndVerify _ (disk w)) eqn:Hv.
    + eapply GetSourceCommand_download; eauto.
    + eapply GetSourceCommand_valid_bundle; eauto.
  - eapply ListClusters_saves; eauto.
  - eapply ListClusterTemplates_saves; eauto.
  - eapply GetCluster_saves; eauto.
  - eapply GrowCluster_saves; eauto.
  - eapply ResizeCluster_saves; eauto.
  - eapply RebuildCluster_saves; eauto.
  - eapply SetAutoScale_saves; eauto.
  - eapply DeleteCluster_saves; eauto.
  - unfold lift in Hrun. inversion Hrun as [Heq].
    pose proof (DeleteClusterCredentials_events account name customPath w)
      as [He _].
    rewrite Heq in He. exact He.
Qed.
End Save.

(** ** Listing templates through the client *)

Section Listing.
Context {A S FS : Type}.
Context {svcC : ClusterService S} {fsC : FileSystem FS}
        {colC : Collaborators A S FS}.
Import client.

Local Abbreviation W := (World A S FS).

(** With a filter, the client keeps the templates whose name [Glob]
    accepts, in the order of the listing. *)
Lemma ListClusterTemplates_filters
      (account : A) (nameFilter : string) (w : W)
      (templates : list ClusterType) (s' : S) :
  nameFilter <> "" ->
  svc_ListClusterTemplates (NewClusterService account (service w)) =
    (inl templates, s') ->
  ListClusterTemplates account nameFilter w =
    Some (inl (List.filter
                 (fun template => glob.Glob nameFilter (TypeName template))
                 templates),
          mkWorld s' (disk w)
                  (events w ++ [CacheApply account;
                                Invoke MListClusterTemplates;
                                CacheSaveAccount account])).
Proof.
  intros Hfilter Hlist.
  unfold ListClusterTemplates, with_defer, buildContainerService, invoke,
    emit, SaveAccount. simpl service. simpl disk. simpl events.
  rewrite Hlist.
  destruct (String.eqb nameFilter "") eqn:He.
  - apply String.eqb_eq in He. contradiction.
  - simpl. unfold emit. simpl. rewrite <- !app_assoc. reflexivity.
Qed.

End Listing.

(** *** Patterns without a wildcard *)

Lemma Split_without_glob (s : string) :
  glob.hasGlob s = false -> Strings.Split s glob.GLOB_byte = [s].
Proof.
  induction s as [|c s IH]; simpl; [reflexivity|].
  intros Hno. apply orb_false_iff in Hno as [Hc Hs].
  rewrite Hc, (IH Hs). reflexivity.
Qed.

(** Without a wildcard, [Glob] is equality of strings. *)
Lemma Glob_literal (pattern subj : string) :
  glob.hasGlob pattern = false ->
  glob.Glob pattern subj = String.eqb subj pattern.
Proof.
  intros Hno. unfold glob.Glob.
  destruct (String.eqb pattern "") eqn:He; [reflexivity|].
  destruct (String.eqb pattern glob.GLOB) eqn:Hg.
  - apply String.eqb_eq in Hg. subst pattern. discriminate.
  - rewrite (Split_without_glob _ Hno). reflexivity.
Qed.

Lemma lower_ascii_star (c : ascii) :
  Ascii.eqb (Strings.lower_ascii c) glob.GLOB_byte = Ascii.eqb c glob.GLOB_byte.
Proof.
  destruct c as [[] [] [] [] [] [] [] []]; reflexivity.
Qed.

Lemma ToLower_hasGlob (s : string) :
  glob.hasGlob (Strings.ToLower s) = glob.hasGlob s.
Proof.
  induction s as [|c s IH]; simpl; [reflexivity|].
  rewrite lower_ascii_star, IH. reflexivity.
Qed.

(** A filter without a wildcard that differs from a name only in the case
    of its letters: [Glob] rejects the name and [GlobI] accepts it. *)
Lemma Glob_case_sensitive (nameFilter name : string) :
  glob.hasGlob nameFilter = false ->
  nameFilter <> name ->
  Strings.ToLower nameFilter = Strings.ToLower name ->
  glob.Glob nameFilter name = false /\ glob.GlobI nameFilter name = true.
Proof.
  intros Hno Hne Hlow. split.
  - rewrite (Glob_literal _ _ Hno). apply String.eqb_neq. congruence.
  - unfold glob.GlobI. rewrite Glob_literal.
    + apply String.eqb_eq. congruence.
    + rewrite ToLower_hasGlob. exact Hno.
Qed.

(** C9. [Client.ListClusterTemplates] with a filter keeps the templates
    whose name is accepted by [Glob], which compares letters as they are;
    template resolution uses [GlobI], which folds case. So a filter without
    a wildcard that differs from a template's name only in the case of its
    letters drops that template from the listing, while resolution by the
    same pattern finds it. On the three templates of the examples the filter
    "kubernetes-small" lists nothing, and resolves to "Kubernetes-Small". *)
Theorem ListClusterTemplates_is_case_sensitive :
  (forall (A S FS : Type) (svcC : ClusterService S) (fsC : FileSystem FS)
          (colC : Collaborators A S FS)
          (account : A) (nameFilter : string) (w : client.World A S FS)
          (templates : list ClusterType) (s' : S),
      nameFilter <> "" ->
      svc_ListClusterTemplates
        (NewClusterService account (client.service w)) = (inl templates, s') ->
      let kept :=
        List.filter (fun template => glob.Glob nameFilter (TypeName template))
                    templates in
      (exists w',
          client.ListClusterTemplates account nameFilter w =
            Some (inl kept, w')) /\
      (forall template,
          In template templates ->
          glob.hasGlob nameFilter = false ->
          nameFilter <> TypeName template ->
          Strings.ToLower nameFilter = Strings.ToLower (TypeName template) ->
          ~ In template kept /\
          glob.GlobI nameFilter (TypeName template) = true)) /\
  (let template := mkClusterType 1 "Kubernetes-Small" "kubernetes" "lxc" in
   let nameFilter := "kubernetes-small" in
   In template fixture.templates /\
   Strings.ToLower nameFilter = Strings.ToLower (TypeName template) /\
   option_map fst
     (client.ListClusterTemplates (svcC := scenario.service)
        "acct" nameFilter scenario.world) = Some (inl []) /\
   fst (makecoe.lookupClusterTypeByName fixture.rangeOrder nameFilter
          (fixture.ready (fixture.remote [] (inr fixture.notFound)))) =
     inl template).
Proof.
  split.
  - intros A S FS svcC fsC colC account nameFilter w templates s'
           Hfilter Hlist kept.
    split.
    + eexists. apply ListClusterTemplates_filters; eassumption.
    + intros template Hin Hno Hne Hlow.
      destruct (Glob_case_sensitive _ _ Hno Hne Hlow) as [Hglob HglobI].
      split; [|exact HglobI].
      subst kept. rewrite filter_In. intros [_ Hkeep]. congruence.
  - repeat split; vm_compute; auto.
Qed.

(** ** The theorems at work on the scenario *)

Lemma WaitUntilClusterIsActive_already_active_witness :
  Strings.ToLower (GetStatus (fixture.cluster "Active")) = "active" /\
  makecoe.WaitUntilClusterIsActive 0 (fixture.cluster "Active")
    (scenario.polling []) =
  Some (inl (fixture.cluster "Active"), scenario.polling []).
Proof.
  split; [reflexivity|].
  apply WaitUntilClusterIsActive_already_active. reflexivity.
Defined.

Lemma WaitUntilClusterIsActive_building_building_active_witness :
  let answers := [inl (fixture.cluster "building");
                  inl (fixture.cluster "building");
                  inl (fixture.cluster "active")] in
  makecoe.WaitUntilClusterIsActive 3 (fixture.cluster "pending")
    (scenario.polling answers) =
  Some (inl (fixture.cluster "active"),
        scenario.polled []
          [scenario.fetch; scenario.pause; scenario.fetch; scenario.pause;
           scenario.fetch]).
Proof.
  intros answers.
  refine (proj1 (WaitUntilClusterIsActive_building_building_active
                   (fixture.cluster "pending")
                   (fixture.cluster "building") (fixture.cluster "building")
                   (fixture.cluster "active")
                   (scenario.polling answers) carinaClient
                   (fixture.remote (tl answers) (inr fixture.notFound))
                   (fixture.remote (tl (tl answers)) (inr fixture.notFound))
                   (fixture.remote [] (inr fixture.notFound))
                   3 _ _ _ _ _ _ _ _ _));
    first [reflexivity | lia].
Defined.

Lemma WaitUntilClusterIsActive_returns_iff_witness :
  let answers := [inl (fixture.cluster "building");
                  inl (fixture.cluster "Error")] in
  makecoe.WaitUntilClusterIsActive 2 (fixture.cluster "pending")
    (scenario.polling answers) =
  Some (inl (fixture.cluster "Error"),
        scenario.polled [] [scenario.fetch; scenario.pause; scenario.fetch]).
Proof.
  intros answers.
  apply WaitUntilClusterIsActive_returns_iff. right. split.
  - intros [Hs|Hs]; vm_compute in Hs; discriminate.
  - exists 1%nat, (scenario.polled [inl (fixture.cluster "Error")]
                      [scenario.fetch; scenario.pause]).
    split; [lia|]. split.
    + eapply makecoe.activeRounds_S with (fetched := fixture.cluster "building");
        [reflexivity|reflexivity|apply makecoe.activeRounds_O].
    + left. exists (fixture.cluster "Error").
      split; [reflexivity|]. split; [right; reflexivity|reflexivity].
Defined.

Lemma WaitUntilClusterIsDeleted_fetch_outcomes_witness :
  let deleting := fixture.cluster "deleting" in
  let run answers :=
    makecoe.WaitUntilClusterIsDeleted 2 deleting (scenario.polling answers) in
  let polled := [scenario.fetch; scenario.pause; scenario.fetch] in
  run [inl deleting; inr fixture.notFound] =
    Some (None, scenario.polled [] polled) /\
  run [inl deleting; inl (fixture.cluster "ERROR")] =
    Some (Some makecoe.deletionError, scenario.polled [] polled) /\
  run [inl deleting; inr (ErrorString "timeout")] =
    Some (Some (Wrapped (ErrorString "timeout")
                        "[make-coe] Unable to retrieve cluster (c-42)"),
          scenario.polled [] polled).
Proof.
  intros deleting run polled.
  assert (Hround : forall last,
             makecoe.deletedRounds (GetID deleting) 1
               (scenario.polling [inl deleting; last])
               (scenario.polled [last] [scenario.fetch; scenario.pause])).
  { intros last.
    eapply makecoe.deletedRounds_S with (fetched := deleting);
      [reflexivity|reflexivity|apply makecoe.deletedRounds_O]. }
  split; [|split].
  - refine (proj1 (WaitUntilClusterIsDeleted_fetch_outcomes deleting 1 2 _ _
                     eq_refl (Hround _) _) _ _ _ _); [lia|reflexivity|].
    exists (mkHTTPErr 404 "cluster not found"). split; reflexivity.
  - refine (proj1 (proj2 (WaitUntilClusterIsDeleted_fetch_outcomes deleting 1 2
                            _ _ eq_refl (Hround _) _)) _ _ _ _);
      [lia|reflexivity|reflexivity].
  - refine (proj2 (proj2 (WaitUntilClusterIsDeleted_fetch_outcomes deleting 1 2
                            _ _ eq_refl (Hround _) _)) _ _ _ _);
      [lia|reflexivity|].
    intros (httpErr & Hcause & _). discriminate.
Defined.

Lemma lookupClusterTypeByName_by_matches_witness :
  let carina := scenario.polling [] in
  let resolve pattern :=
    fst (makecoe.lookupClusterTypeByName fixture.rangeOrder pattern carina) in
  resolve "Kubernetes-S*" =
    inl (mkClusterType 1 "Kubernetes-Small" "kubernetes" "lxc") /\
  resolve "K*" = inr (MultipleMatchingTemplatesError "K*") /\
  resolve "Mesos*" = inr (ErrorString "Could not find template named Mesos*").
Proof.
  intros carina resolve. subst resolve. cbv beta.
  assert (Horder : forall m : gmap Z ClusterType,
             fixture.rangeOrder m ≡ₚ (map_to_list m).*2)
    by (intros m; reflexivity).
  pose (cache := makecoe.fillCache fixture.templates).
  assert (Hcache : makecoe.getClusterTypeCache carina =
                   (inl cache,
                    makecoe.mkMakeCOE (Some carinaClient) (Some cache)
                      (fixture.remote [] (inr fixture.notFound))
                      [CallListClusterTypes]))
    by reflexivity.
  split; [|split].
  - rewrite (lookupClusterTypeByName_by_matches fixture.rangeOrder
               "Kubernetes-S*" _ _ _ Horder Hcache).
    vm_compute. reflexivity.
  - rewrite (lookupClusterTypeByName_by_matches fixture.rangeOrder
               "K*" _ _ _ Horder Hcache).
    vm_compute. reflexivity.
  - rewrite (lookupClusterTypeByName_by_matches fixture.rangeOrder
               "Mesos*" _ _ _ Horder Hcache).
    vm_compute. reflexivity.
Defined.

Lemma DeleteClusterCredentials_cases_witness :
  let run name customPath :=
    client.DeleteClusterCredentials "acct" name customPath scenario.world in
  let on_disk d :=
    client.mkWorld (client.service scenario.world) d [] : scenario.World in
  run "web" "/tmp/.." =
    (Some (ErrorString
             "Path to cluster is empty, the current directory, or a root path, not deleting"),
     scenario.world) /\
  run "none" "" = (None, scenario.world) /\
  run "old" "" =
    (Some (ErrorString
             "Path to cluster credentials exists but not the ca.pem, not deleting"),
     scenario.world) /\
  run "web" "" =
    (None, on_disk ["/home/u/.carina/clusters/acct/old"; "/etc/passwd"]).
Proof.
  intros run on_disk. subst run. cbv beta.
  split; [|split; [|split]].
  - refine (proj1 (DeleteClusterCredentials_cases (S := makecoe.MakeCOE scripted.Remote)
                     "acct" "web" "/tmp/.." scenario.world "/tmp/.." eq_refl) _).
    right. right. reflexivity.
  - refine (proj1 (proj2 (DeleteClusterCredentials_cases
                            "acct" "none" "" scenario.world
                            "/home/u/.carina/clusters/acct/none" eq_refl)) _ _).
    + intros [H|[H|H]]; vm_compute in H; discriminate.
    + reflexivity.
  - refine (proj1 (proj2 (proj2 (DeleteClusterCredentials_cases
                            "acct" "old" "" scenario.world
                            "/home/u/.carina/clusters/acct/old" eq_refl))) _ _ _).
    + intros [H|[H|H]]; vm_compute in H; discriminate.
    + reflexivity.
    + reflexivity.
  - refine (proj2 (proj2 (proj2 (DeleteClusterCredentials_cases
                            "acct" "web" "" scenario.world
                            "/home/u/.carina/clusters/acct/web" eq_refl))) _ _ _).
    + intros [H|[H|H]]; vm_compute in H; discriminate.
    + reflexivity.
    + reflexivity.
Defined.

Lemma DeleteCluster_not_found_is_success_witness :
  let after d calls :=
    client.mkWorld
      (makecoe.mkMakeCOE (Some carinaClient) None
         (fixture.remote [] (inr fixture.notFound))
         [CallAuthenticate; CallDelete "web"])
      d calls : scenario.World in
  client.DeleteCluster (svcC := scenario.service) 0 "acct" "web" true
    scenario.world =
  Some (None,
        after ["/home/u/.carina/clusters/acct/old"; "/etc/passwd"]
              [client.CacheApply "acct";
               client.Invoke client.MDeleteCluster;
               client.Invoke client.MWaitUntilClusterIsDeleted;
               client.CacheSaveAccount "acct"]).
Proof.
  intros after.
  refine (eq_trans
            (proj2 (proj2 (DeleteCluster_not_found_is_success
                             fixture.emptyCluster fixture.rangeOrder
                             0 "acct" "web" true scenario.world
                             (scenario.polled [] [CallAuthenticate])
                             fixture.notFound
                             (fixture.remote [] (inr fixture.notFound))
                             eq_refl eq_refl _)))
            _).
  - exists (mkHTTPErr 404 "cluster not found"). split; reflexivity.
  - vm_compute. reflexivity.
Defined.

Lemma SaveAccount_runs_last_where_deferred_witness :
  let op := client.OpDeleteCluster "acct" "web" false in
  let w' : scenario.World :=
    client.mkWorld
      (scenario.polled [] [CallAuthenticate; CallDelete "web"])
      ["/home/u/.carina/clusters/acct/old"; "/etc/passwd"]
      [client.CacheApply "acct"; client.Invoke client.MDeleteCluster;
       client.CacheSaveAccount "acct"] in
  client.may_wait op = false /\
  scenario.perform 0 op scenario.world = Some (client.OutError None, w') /\
  (exists out w1, scenario.perform 0 op scenario.world = Some (out, w1)) /\
  client.saved_last "acct" scenario.world w'.
Proof.
  intros op w'.
  pose proof (SaveAccount_runs_last_where_deferred
                (svcC := scenario.service) 0 op scenario.world) as [Hret Hlast].
  assert (Hrun : scenario.perform 0 op scenario.world =
                 Some (client.OutError None, w'))
    by (vm_compute; reflexivity).
  split; [reflexivity|]. split; [exact Hrun|]. split.
  - apply Hret. reflexivity.
  - exact (Hlast _ _ Hrun).
Defined.

(** C1, as the specification words it, fails on [GetSourceCommand]: with a
    valid bundle on disk it returns the text to source and leaves the world
    as it found it. No event was recorded: [SaveAccount] did not run. *)
Lemma GetSourceCommand_returns_without_SaveAccount :
  scenario.perform 0 (client.OpGetSourceCommand "acct" "bash" "web" "")
    scenario.world =
  Some (client.OutText
          (inl "source /home/u/.carina/clusters/acct/web/docker.env"),
        scenario.world) /\
  client.events scenario.world = [] /\
  ~ In (client.CacheSaveAccount "acct") (client.events scenario.world).
Proof.
  split; [vm_compute; reflexivity|]. split; [reflexivity|].
  intros [].
Qed.

Lemma ListClusterTemplates_is_case_sensitive_witness :
  let nameFilter := "swarm-small" in
  let kept :=
    List.filter (fun template => glob.Glob nameFilter (TypeName template))
                fixture.templates in
  (exists w',
      client.ListClusterTemplates (svcC := scenario.service)
        "acct" nameFilter scenario.world = Some (inl kept, w')) /\
  ~ In (mkClusterType 3 "Swarm-Small" "swarm" "lxc") kept /\
  glob.GlobI nameFilter "Swarm-Small" = true.
Proof.
  intros nameFilter kept.
  destruct (proj1 ListClusterTemplates_is_case_sensitive
              string (makecoe.MakeCOE scripted.Remote) memfs.Disk
              scenario.service _ _ "acct" nameFilter scenario.world
              fixture.templates
              (makecoe.mkMakeCOE (Some carinaClient) None
                 (fixture.remote [] (inr fixture.notFound))
                 [CallAuthenticate; CallListClusterTypes]))
    as [Hkept Hdrop].
  - discriminate.
  - reflexivity.
  - split; [exact Hkept|].
    apply (Hdrop (mkClusterType 3 "Swarm-Small" "swarm" "lxc")).
    + right. right. left. reflexivity.
    + reflexivity.
    + discriminate.
    + reflexivity.
Defined.

(** * Further properties of the make-coe service *)

Section MakeCOE_errors.
Context {B : Type} `{CarinaAPI B}.
Import makecoe.

Local Abbreviation Svc := (MakeCOE B).

Lemma handleLibcarinaError_cause (err : error) :
  errors.Cause (handleLibcarinaError err) = errors.Cause err.
Proof.
  unfold handleLibcarinaError.
  destruct (errors.Cause err) as [httpErr| | | | |] eqn:Hcause;
    try exact Hcause.
  unfold handleHTTPError. destruct (StatusCode httpErr =? 406); reflexivity.
Qed.

(** X1. Translating an error of the remote never changes its cause: behind
    whatever [handleLibcarinaError] returns, [errors.Cause] finds the same
    error as before. So a caller that looks for an HTTP status code finds
    it after the translation exactly when it was there before. *)
Theorem handleLibcarinaError_preserves_cause (err : error) :
  errors.Cause (handleLibcarinaError err) = errors.Cause err /\
  (is_not_found (handleLibcarinaError err) <-> is_not_found err).
Proof.
  split; [apply handleLibcarinaError_cause|].
  unfold is_not_found. rewrite handleLibcarinaError_cause. reflexivity.
Qed.

(** X2. What [GetCluster] returns when the remote fails, through a service
    that holds a session: an HTTP 406 at the root of the error comes back
    wrapped in the out-of-date message; any other HTTP error comes back
    bare, without the text that names the operation; an error that is not an
    HTTP error comes back wrapped in that text. *)
Theorem GetCluster_error_translation
        (token : string) (carina : Svc) h err b' :
  client carina = Some h ->
  api_Get token (remote carina) = (inr err, b') ->
  GetCluster token carina =
    (inr (match errors.Cause err with
          | EHTTP httpErr =>
              if StatusCode httpErr =? 406 then handleNotAcceptable httpErr
              else EHTTP httpErr
          | _ =>
              Wrapped err
                ("[make-coe] Unable to retrieve cluster (" ++ token ++ ")")
          end),
     mkMakeCOE (client carina) (clusterTypeCache carina) b'
               (journal carina ++ [CallGet token])).
Proof.
  intros Hc Hget. unfold GetCluster. rewrite (init_ready _ _ Hc).
  unfold call. rewrite Hget.
  unfold handleLibcarinaError, errors.Wrap. simpl errors.Cause.
  destruct (errors.Cause err); reflexivity.
Qed.

(** X3. [init] opens the session once. After an [init] without error the
    service holds a session, a second [init] changes nothing, and a fetch
    sends its [Get] and nothing else. After an [init] with an error the
    service still has no session and one authentication was attempted. *)
Theorem init_opens_session_once (carina carina1 : Svc) (r : option error) :
  init carina = (r, carina1) ->
  match r with
  | None =>
      is_Some (client carina1) /\
      init carina1 = (None, carina1) /\
      forall token,
        journal (snd (GetCluster token carina1)) =
        (journal carina1 ++ [CallGet token])%list
  | Some err =>
      client carina = None /\ client carina1 = None /\
      journal carina1 = (journal carina ++ [CallAuthenticate])%list
  end.
Proof.
  unfold init. destruct (client carina) as [h|] eqn:Hc.
  - intros Heq. inversion Heq; subst.
    split; [rewrite Hc; eauto|].
    split; [rewrite Hc; reflexivity|].
    intros token. unfold GetCluster, init. rewrite Hc. unfold call.
    destruct (api_Get token (remote carina1)) as [[c|e] b']; reflexivity.
  - unfold call.
    destruct (api_Authenticate (remote carina)) as [[[]|e] b'];
      simpl; intros Heq; inversion Heq; subst.
    + split; [simpl; eauto|]. split; [reflexivity|].
      intros token. unfold GetCluster, init, call. simpl.
      destruct (api_Get token b') as [[c|e] b'']; reflexivity.
    + split; [reflexivity|]. split; [exact Hc|reflexivity].
Qed.

(** X4. When the authentication fails, every operation that needs the
    remote returns the error of the authentication as it is, leaves the
    service without a session, and has sent nothing but the attempt. *)
Theorem operations_stop_at_failed_authentication
        (newCluster : Cluster)
        (rangeOrder : gmap Z ClusterType -> list ClusterType)
        (carina : Svc) err b' :
  client carina = None ->
  api_Authenticate (remote carina) = (inr err, b') ->
  let failed :=
    mkMakeCOE None (clusterTypeCache carina) b'
              (journal carina ++ [CallAuthenticate]) in
  (forall token, GetCluster token carina = (inr err, failed)) /\
  (forall token, DeleteCluster newCluster token carina = (inr err, failed)) /\
  (forall token nodes, ResizeCluster token nodes carina = (inr err, failed)) /\
  (forall token, GetClusterCredentials token carina = (inr err, failed)) /\
  ListClusters carina = (inr err, failed) /\
  ListClusterTemplates carina = (inr err, failed) /\
  (forall name template nodes,
      template <> "" ->
      CreateCluster rangeOrder name template nodes carina = (inr err, failed)).
Proof.
  intros Hc Hauth failed.
  assert (Hinit : init carina = (Some err, failed)).
  { unfold init, call. rewrite Hc, Hauth. reflexivity. }
  repeat match goal with |- _ /\ _ => split end; intros.
  - unfold GetCluster. rewrite Hinit. reflexivity.
  - unfold DeleteCluster. rewrite Hinit. reflexivity.
  - unfold ResizeCluster. rewrite Hinit. reflexivity.
  - unfold GetClusterCredentials. rewrite Hinit. reflexivity.
  - unfold ListClusters. rewrite Hinit. reflexivity.
  - unfold ListClusterTemplates. rewrite Hinit. reflexivity.
  - unfold CreateCluster.
    destruct (String.eqb template "") eqn:He.
    + apply String.eqb_eq in He. contradiction.
    + rewrite Hinit. reflexivity.
Qed.

Lemma Cause_idempotent (err : error) :
  errors.Cause (errors.Cause err) = errors.Cause err.
Proof. induction err; simpl; auto. Qed.

(** X18. Of the failures of the remote, [DeleteCluster] turns only the
    one whose cause is an HTTP 404 into a success. With the session opened:
    a cluster the remote returns comes back as it is; a failure that is not
    a 404 comes back as an error, and that error has the cause of the
    remote's. *)
Theorem DeleteCluster_only_not_found_is_success
        (newCluster : Cluster) (token : string) (carina carina1 : Svc)
        (answer : result Cluster) (b' : B) :
  init carina = (None, carina1) ->
  api_Delete token (remote carina1) = (answer, b') ->
  match answer with
  | inl deleted =>
      fst (DeleteCluster newCluster token carina) = inl deleted
  | inr err =>
      ~ is_not_found err ->
      exists err',
        fst (DeleteCluster newCluster token carina) = inr err' /\
        errors.Cause err' = errors.Cause err
  end.
Proof.
  intros Hinit Hdel. unfold DeleteCluster. rewrite Hinit.
  unfold call. rewrite Hdel. destruct answer as [deleted|err]; simpl.
  - reflexivity.
  - intros Hother.
    assert (Hcause :
              errors.Cause
                (handleLibcarinaError
                   (errors.Wrap (errors.Cause err)
                      ("[make-coe] Unable to delete cluster (" ++ token ++ ")")))
              = errors.Cause err).
    { rewrite handleLibcarinaError_cause. simpl. apply Cause_idempotent. }
    destruct (errors.Cause err) as [httpErr| | | | |] eqn:Hc;
      try (eexists; split; [reflexivity|exact Hcause]).
    destruct (StatusCode httpErr =? http.StatusNotFound) eqn:Hcode.
    + exfalso. apply Hother. exists httpErr.
      split; [exact Hc|]. apply Z.eqb_eq. exact Hcode.
    + eexists. split; [reflexivity|exact Hcause].
Qed.

End MakeCOE_errors.

(** * The template cache and the creation of clusters *)

Section MakeCOE_templates.
Context {B : Type} `{CarinaAPI B}.
Import makecoe.

Local Abbreviation Svc := (MakeCOE B).
Local Abbreviation not_create := (fun c : Call => forall opts, c <> CallCreate opts).

(** X5. What the cache filled from a listing holds under an ID is the
    last listed template with that ID, and nothing when no listed template
    has it. *)
Theorem fillCache_lookup (listed : list ClusterType) (i : Z) :
  fillCache listed !! i =
  head (List.filter (fun c => TypeID c =? i) (rev listed)).
Proof.
  unfold fillCache.
  induction listed as [|c listed IH] using rev_ind; [reflexivity|].
  rewrite foldl_snoc, rev_unit. simpl.
  destruct (TypeID c =? i) eqn:Heq.
  - apply Z.eqb_eq in Heq. subst i. apply lookup_insert_eq.
  - apply Z.eqb_neq in Heq. rewrite lookup_insert_ne by exact Heq. exact IH.
Qed.

(** The outcomes of [getClusterTypeCache]. *)
Lemma getClusterTypeCache_cases
        (carina carina1 : Svc) (r : result (gmap Z ClusterType)) :
  getClusterTypeCache carina = (r, carina1) ->
  match r with
  | inl cache =>
      clusterTypeCache carina1 = Some cache /\
      getClusterTypeCache carina1 = (inl cache, carina1)
  | inr _ => clusterTypeCache carina1 = None
  end /\
  client carina1 = client carina /\
  (journal carina1 = journal carina \/
   journal carina1 = (journal carina ++ [CallListClusterTypes])%list).
Proof.
  unfold getClusterTypeCache at 1.
  destruct (clusterTypeCache carina) as [cache|] eqn:Hcache.
  - intros Heq. inversion Heq; subst.
    split; [|split; [reflexivity|left; reflexivity]].
    split; [exact Hcache|].
    unfold getClusterTypeCache. rewrite Hcache. reflexivity.
  - unfold listClusterTypes, call.
    destruct (api_ListClusterTypes (remote carina)) as [[listed|err] b'];
      intros Heq; inversion Heq; subst.
    + split; [|split; [reflexivity|right; reflexivity]].
      split; reflexivity.
    + split; [|split; [reflexivity|right; reflexivity]].
      exact Hcache.
Qed.


Lemma init_sends_no_create (carina carina1 : Svc) r :
  init carina = (r, carina1) ->
  clusterTypeCache carina1 = clusterTypeCache carina /\
  exists pre, journal carina1 = (journal carina ++ pre)%list /\
              Forall not_create pre.
Proof.
  unfold init. destruct (client carina).
  - intros Heq. inversion Heq; subst. split; [reflexivity|].
    exists []. rewrite app_nil_r. split; [reflexivity|constructor].
  - unfold call.
    destruct (api_Authenticate (remote carina)) as [[[]|e] b'];
      simpl; intros Heq; inversion Heq; subst;
      (split; [reflexivity|]);
      exists [CallAuthenticate]; (split; [reflexivity|]);
      repeat constructor; discriminate.
Qed.

Lemma getClusterTypeCache_sends_no_create (carina carina1 : Svc) r :
  getClusterTypeCache carina = (r, carina1) ->
  exists pre, journal carina1 = (journal carina ++ pre)%list /\
              Forall not_create pre.
Proof.
  intros Hget.
  destruct (getClusterTypeCache_cases _ _ _ Hget) as (_ & _ & [Hj|Hj]).
  - exists []. rewrite app_nil_r. split; [exact Hj|constructor].
  - exists [CallListClusterTypes]. split; [exact Hj|].
    repeat constructor; discriminate.
Qed.

Variable rangeOrder : gmap Z ClusterType -> list ClusterType.
Hypothesis rangeOrder_visits_all :
  forall m, rangeOrder m ≡ₚ (map_to_list m).*2.

Lemma lookupClusterTypeByName_found (pattern : string) (carina carina1 : Svc) r :
  lookupClusterTypeByName rangeOrder pattern carina = (r, carina1) ->
  (exists pre, journal carina1 = (journal carina ++ pre)%list /\
               Forall not_create pre) /\
  forall clusterType,
    r = inl clusterType ->
    exists cache,
      clusterTypeCache carina1 = Some cache /\
      List.filter (fun m => glob.GlobI pattern (TypeName m))
                  (map_to_list cache).*2 = [clusterType].
Proof.
  unfold lookupClusterTypeByName.
  destruct (getClusterTypeCache carina) as [[cache|err] c1] eqn:Hget.
  - pose proof (getClusterTypeCache_sends_no_create _ _ _ Hget) as Hpre.
    destruct (getClusterTypeCache_cases _ _ _ Hget) as ((Hc & _) & _).
    rewrite (lookupLoop_order pattern _ _ (rangeOrder_visits_all cache)).
    destruct (List.filter _ (map_to_list cache).*2) as [|m [|m' rest]] eqn:Hf;
      intros Heq; inversion Heq; subst; (split; [exact Hpre|]);
      intros clusterType Hr; inversion Hr; subst.
    exists cache. split; [exact Hc|exact Hf].
  - intros Heq. inversion Heq; subst.
    split; [eapply getClusterTypeCache_sends_no_create; eauto|].
    intros clusterType Hr. discriminate.
Qed.

(** X7. [CreateCluster] sends at most one [Create], and only for a
    template that resolved: either nothing it sent is a [Create] and it
    returns an error, or the template is not empty, exactly one template of
    the cache matches it, and the one [Create], sent last, carries the given
    name and node count and the ID of that template. *)
Theorem CreateCluster_creates_for_the_unique_match
        (name template : string) (nodes : Z) (carina carina' : Svc)
        (r : result Cluster) :
  CreateCluster rangeOrder name template nodes carina = (r, carina') ->
  exists pre,
    Forall not_create pre /\
    ((journal carina' = (journal carina ++ pre)%list /\
      exists err, r = inr err) \/
     (exists clusterType cache,
         template <> "" /\
         clusterTypeCache carina' = Some cache /\
         List.filter (fun m => glob.GlobI template (TypeName m))
                     (map_to_list cache).*2 = [clusterType] /\
         journal carina' =
           (journal carina ++ pre ++
            [CallCreate
               (mkCreateClusterOpts name (TypeID clusterType) nodes)])%list)).
Proof.
  unfold CreateCluster.
  destruct (String.eqb template "") eqn:He.
  { intros Heq. inversion Heq; subst. exists []. split; [constructor|].
    left. rewrite app_nil_r. eauto. }
  apply String.eqb_neq in He.
  destruct (init carina) as [[err|] c1] eqn:Hinit.
  { intros Heq. inversion Heq; subst.
    destruct (init_sends_no_create _ _ _ Hinit) as (_ & pre & Hj & Hpre).
    exists pre. split; [exact Hpre|]. left. eauto. }
  destruct (init_sends_no_create _ _ _ Hinit) as (_ & pre1 & Hj1 & Hpre1).
  destruct (lookupClusterTypeByName rangeOrder template c1)
    as [[clusterType|err] c2] eqn:Hlookup.
  - destruct (lookupClusterTypeByName_found _ _ _ _ Hlookup)
      as ((pre2 & Hj2 & Hpre2) & Hfound).
    destruct (Hfound clusterType eq_refl) as (cache & Hcache & Hunique).
    unfold call.
    destruct (api_Create _ (remote c2)) as [[created|err] b'];
      intros Heq; inversion Heq; subst; simpl;
      exists (pre1 ++ pre2)%list;
      (split; [apply Forall_app; split; assumption|]);
      right; exists clusterType, cache;
      (split; [exact He|]); (split; [exact Hcache|]);
      (split; [exact Hunique|]);
      rewrite Hj2, Hj1, <- !app_assoc; reflexivity.
  - intros Heq. inversion Heq; subst.
    destruct (lookupClusterTypeByName_found _ _ _ _ Hlookup)
      as ((pre2 & Hj2 & Hpre2) & _).
    exists (pre1 ++ pre2)%list.
    split; [apply Forall_app; split; assumption|].
    left. split; [rewrite Hj2, Hj1, <- app_assoc; reflexivity|eauto].
Qed.

End MakeCOE_templates.

(** * The two waits *)

Section MakeCOE_waits.
Context {B : Type} `{CarinaAPI B}.
Import makecoe.

Local Abbreviation Svc := (MakeCOE B).

(** The status decides [isDoneDeleted]. *)
Lemma isDoneDeleted_done (cluster : Cluster) :
  fst (isDoneDeleted cluster) = true <->
  (Strings.ToLower (GetStatus cluster) = "error" /\
   snd (isDoneDeleted cluster) = Some deletionError) \/
  (Strings.ToLower (GetStatus cluster) = "deleted" /\
   snd (isDoneDeleted cluster) = None).
Proof.
  unfold isDoneDeleted.
  destruct (String.eqb (Strings.ToLower (GetStatus cluster)) "error") eqn:He.
  - apply String.eqb_eq in He. simpl. split; [intros _; left|reflexivity].
    split; [exact He|reflexivity].
  - apply String.eqb_neq in He. simpl. rewrite String.eqb_eq. split.
    + intros Hd. right. split; [exact Hd|reflexivity].
    + intros [[Herr _]|[Hd _]]; [contradiction|exact Hd].
Qed.

Lemma isDoneDeleted_deleted (cluster : Cluster) :
  Strings.ToLower (GetStatus cluster) = "deleted" ->
  isDoneDeleted cluster = (true, None).
Proof. intros Hs. unfold isDoneDeleted. rewrite Hs. reflexivity. Qed.

(** A cluster that ends the wait for a deletion, and with what. *)
Local Abbreviation ends_with cluster r :=
  ((Strings.ToLower (GetStatus cluster) = "error" /\
    r = Some deletionError) \/
   (Strings.ToLower (GetStatus cluster) = "deleted" /\ r = None)).

(** A failed fetch that ends the wait for a deletion, and with what. *)
Local Abbreviation fails_with err r :=
  ((is_not_found err /\ r = None) \/ (~ is_not_found err /\ r = Some err)).

Lemma ends_with_isDoneDeleted (cluster : Cluster) (r : option error) :
  ends_with cluster r <-> isDoneDeleted cluster = (true, r).
Proof.
  split.
  - intros [[Hs ->]|[Hs ->]].
    + apply isDoneDeleted_error. exact Hs.
    + apply isDoneDeleted_deleted. exact Hs.
  - intros Heq.
    assert (Hd : fst (isDoneDeleted cluster) = true) by (rewrite Heq; reflexivity).
    apply isDoneDeleted_done in Hd. rewrite Heq in Hd. simpl in Hd.
    destruct Hd as [[Hs Hr]|[Hs Hr]]; [left|right]; auto.
Qed.

Lemma failed_fetch_cases (err : error) :
  fails_with err
    (match errors.Cause err with
     | EHTTP httpErr =>
         if StatusCode httpErr =? http.StatusNotFound then None else Some err
     | _ => Some err
     end).
Proof.
  unfold is_not_found.
  destruct (errors.Cause err) as [httpErr| | | | |] eqn:Hc;
    try (right; split; [intros (h & Hh & _); discriminate|reflexivity]).
  destruct (StatusCode httpErr =? http.StatusNotFound) eqn:Hcode.
  - apply Z.eqb_eq in Hcode. left. split; [eauto|reflexivity].
  - apply Z.eqb_neq in Hcode. right. split; [|reflexivity].
    intros (h & Hh & Hcode'). inversion Hh; subst. contradiction.
Qed.

Lemma fails_with_unique (err : error) (r r' : option error) :
  fails_with err r -> fails_with err r' -> r = r'.
Proof.
  intros [[Hn ->]|[Hn ->]] [[Hn' ->]|[Hn' ->]];
    try reflexivity; contradiction.
Qed.

Lemma waitDeletedLoop_inv (cluster : Cluster) fuel :
  forall (carina carina' : Svc) r,
    waitDeletedLoop fuel cluster carina = Some (r, carina') ->
    exists n carina_n,
      (n < fuel)%nat /\
      deletedRounds (GetID cluster) n carina carina_n /\
      ((exists fetched,
           GetCluster (GetID cluster) carina_n = (inl fetched, carina') /\
           ends_with fetched r) \/
       (exists err,
           GetCluster (GetID cluster) carina_n = (inr err, carina') /\
           fails_with err r)).
Proof.
  induction fuel as [|fuel IH]; intros carina carina' r Hrun; simpl in Hrun.
  - discriminate.
  - destruct (GetCluster (GetID cluster) carina) as [[fetched|err] carina1]
      eqn:Hget.
    + destruct (isDoneDeleted fetched) as [done e] eqn:Hdone.
      destruct done.
      * inversion Hrun; subst. exists O, carina.
        split; [lia|]. split; [constructor|]. left. exists fetched.
        split; [exact Hget|]. apply ends_with_isDoneDeleted. exact Hdone.
      * destruct (IH _ _ _ Hrun) as (n & carina_n & Hlt & Hrounds & Hexit).
        exists (S n), carina_n. split; [lia|].
        split; [|exact Hexit].
        econstructor; [exact Hget|rewrite Hdone; reflexivity|exact Hrounds].
    + pose proof (failed_fetch_cases err) as Hcases.
      destruct (errors.Cause err) as [httpErr| | | | |];
        [destruct (StatusCode httpErr =? http.StatusNotFound)|..];
        inversion Hrun; subst;
        (exists O, carina; split; [lia|]; split; [constructor|];
         right; exists err; split; [exact Hget|exact Hcases]).
Qed.

(** X8. [WaitUntilClusterIsDeleted] returns exactly in these cases. The
    cluster handed in is in status "error" or "deleted", without regard to
    case: the deletion error, or success, with no fetch. Or, after some
    rounds that each fetched a cluster in neither status and slept, a round
    fetches a cluster in one of them, with the same outcomes; or its fetch
    fails, which is success when the cause is an HTTP 404 and that error
    otherwise. *)
Theorem WaitUntilClusterIsDeleted_returns_iff
        (fuel : nat) (cluster : Cluster) (carina carina' : Svc)
        (r : option error) :
  WaitUntilClusterIsDeleted fuel cluster carina = Some (r, carina') <->
  (ends_with cluster r /\ carina' = carina) \/
  (fst (isDoneDeleted cluster) = false /\
   exists n carina_n,
     (n < fuel)%nat /\
     deletedRounds (GetID cluster) n carina carina_n /\
     ((exists fetched,
          GetCluster (GetID cluster) carina_n = (inl fetched, carina') /\
          ends_with fetched r) \/
      (exists err,
          GetCluster (GetID cluster) carina_n = (inr err, carina') /\
          fails_with err r))).
Proof.
  unfold WaitUntilClusterIsDeleted. split.
  - destruct (isDoneDeleted cluster) as [done e] eqn:Hdone. destruct done.
    + intros Hrun. inversion Hrun; subst. left.
      split; [apply ends_with_isDoneDeleted; exact Hdone|reflexivity].
    + intros Hrun. right. split; [reflexivity|].
      apply waitDeletedLoop_inv. exact Hrun.
  - intros [(Hends & ->)|(Hpend & n & carina_n & Hlt & Hrounds & Hexit)].
    + apply ends_with_isDoneDeleted in Hends. rewrite Hends. reflexivity.
    + rewrite (isDoneDeleted_pending _ Hpend).
      rewrite (waitDeletedLoop_last_round _ _ _ _ _ Hrounds Hlt).
      simpl waitDeletedLoop.
      destruct Hexit as [(fetched & Hget & Hends)|(err & Hget & Hfails)].
      * apply ends_with_isDoneDeleted in Hends. rewrite Hget, Hends.
        reflexivity.
      * rewrite Hget.
        rewrite (fails_with_unique _ _ _ Hfails (failed_fetch_cases err)).
        destruct (errors.Cause err) as [httpErr| | | | |]; try reflexivity.
        destruct (StatusCode httpErr =? http.StatusNotFound); reflexivity.
Qed.

(** What a fetch adds to the journal. *)
Lemma GetCluster_journal (token : string) (carina carina1 : Svc) r :
  GetCluster token carina = (r, carina1) ->
  exists added,
    journal carina1 = (journal carina ++ added)%list /\
    Forall (fun c => c = CallAuthenticate \/ c = CallGet token) added.
Proof.
  unfold GetCluster, init.
  destruct (client carina).
  - unfold call. destruct (api_Get token (remote carina)) as [[got|e] b'];
      intros Heq; inversion Heq; subst;
      exists [CallGet token]; (split; [reflexivity|]);
      repeat first [apply List.Forall_nil | apply List.Forall_cons; [simpl; auto|]].
  - unfold call at 1.
    destruct (api_Authenticate (remote carina)) as [[[]|e] b']; simpl.
    + unfold call. simpl.
      destruct (api_Get token b') as [[got|e'] b''];
        intros Heq; inversion Heq; subst;
        exists [CallAuthenticate; CallGet token];
        (split; [simpl; rewrite <- app_assoc; reflexivity|]);
        repeat first [apply List.Forall_nil | apply List.Forall_cons; [simpl; auto|]].
    + intros Heq. inversion Heq; subst.
      exists [CallAuthenticate]. split; [reflexivity|].
      repeat first [apply List.Forall_nil | apply List.Forall_cons; [simpl; auto|]].
Qed.

(** The calls of a wait on [cluster]. *)
Local Abbreviation polls cluster :=
  (fun c : Call =>
     c = CallAuthenticate \/ c = CallGet (GetID cluster) \/
     c = CallSleep pollingInterval).

Lemma polls_fetch (cluster : Cluster) (added : list Call) :
  Forall (fun c => c = CallAuthenticate \/ c = CallGet (GetID cluster)) added ->
  Forall (polls cluster) added.
Proof. apply List.Forall_impl. intros c [Hc|Hc]; auto. Qed.

Lemma waitActiveLoop_journal (cluster : Cluster) fuel :
  forall (carina carina' : Svc) r,
    waitActiveLoop fuel cluster carina = Some (r, carina') ->
    exists added,
      journal carina' = (journal carina ++ added)%list /\
      Forall (polls cluster) added.
Proof.
  induction fuel as [|fuel IH]; intros carina carina' r Hrun; simpl in Hrun.
  - discriminate.
  - destruct (GetCluster (GetID cluster) carina) as [[fetched|err] carina1]
      eqn:Hget;
      destruct (GetCluster_journal _ _ _ _ Hget) as (a1 & Hj1 & Ha1);
      apply polls_fetch in Ha1.
    + destruct (isDone fetched).
      * inversion Hrun; subst. eauto.
      * destruct (IH _ _ _ Hrun) as (a2 & Hj2 & Ha2).
        exists (a1 ++ CallSleep pollingInterval :: a2)%list. split.
        -- rewrite Hj2. simpl. rewrite Hj1, <- !app_assoc. reflexivity.
        -- apply Forall_app. split; [exact Ha1|].
           constructor; [auto|exact Ha2].
    + inversion Hrun; subst. eauto.
Qed.

Lemma waitDeletedLoop_journal (cluster : Cluster) fuel :
  forall (carina carina' : Svc) r,
    waitDeletedLoop fuel cluster carina = Some (r, carina') ->
    exists added,
      journal carina' = (journal carina ++ added)%list /\
      Forall (polls cluster) added.
Proof.
  induction fuel as [|fuel IH]; intros carina carina' r Hrun; simpl in Hrun.
  - discriminate.
  - destruct (GetCluster (GetID cluster) carina) as [[fetched|err] carina1]
      eqn:Hget;
      destruct (GetCluster_journal _ _ _ _ Hget) as (a1 & Hj1 & Ha1);
      apply polls_fetch in Ha1.
    + destruct (isDoneDeleted fetched) as [[|] e].
      * inversion Hrun; subst. eauto.
      * destruct (IH _ _ _ Hrun) as (a2 & Hj2 & Ha2).
        exists (a1 ++ CallSleep pollingInterval :: a2)%list. split.
        -- rewrite Hj2. simpl. rewrite Hj1, <- !app_assoc. reflexivity.
        -- apply Forall_app. split; [exact Ha1|].
           constructor; [auto|exact Ha2].
    + destruct (errors.Cause err) as [httpErr| | | | |];
        try (inversion Hrun; subst; eauto).
      destruct (StatusCode httpErr =? http.StatusNotFound);
        inversion Hrun; subst; eauto.
Qed.

(** X9. A wait, for an active cluster or for a deletion, only polls: all
    it sends is the authentication, if the session is not open yet, and
    fetches of the ID of the cluster it was handed, whatever the fetched
    clusters say their ID is; between fetches it sleeps the polling
    interval. It creates, deletes, resizes and lists nothing. *)
Theorem waits_only_poll (fuel : nat) (cluster : Cluster) (carina carina' : Svc) :
  (forall r,
      WaitUntilClusterIsActive fuel cluster carina = Some (r, carina') ->
      exists added,
        journal carina' = (journal carina ++ added)%list /\
        Forall (polls cluster) added) /\
  (forall r,
      WaitUntilClusterIsDeleted fuel cluster carina = Some (r, carina') ->
      exists added,
        journal carina' = (journal carina ++ added)%list /\
        Forall (polls cluster) added).
Proof.
  split; intros r.
  - unfold WaitUntilClusterIsActive. destruct (isDone cluster).
    + intros Heq. inversion Heq; subst. exists [].
      rewrite app_nil_r. split; [reflexivity|constructor].
    + apply waitActiveLoop_journal.
  - unfold WaitUntilClusterIsDeleted.
    destruct (isDoneDeleted cluster) as [[|] e].
    + intros Heq. inversion Heq; subst. exists [].
      rewrite app_nil_r. split; [reflexivity|constructor].
    + apply waitDeletedLoop_journal.
Qed.

End MakeCOE_waits.

(** * Further properties of the client *)

Section Client_composition.
Context {A S FS : Type}.
Context {svcC : ClusterService S} {fsC : FileSystem FS}
        {colC : Collaborators A S FS}.
Import client.

Local Abbreviation W := (World A S FS).

Ltac waits_after_proof :=
  intros w;
  unfold with_defer, buildContainerService, invoke, SaveAccount, emit,
    thenWaitUntilActive, invoke_wait;
  simpl service; simpl disk; simpl events;
  match goal with
  | |- context [?first (NewClusterService ?a (service w))] =>
      destruct (first (NewClusterService a (service w))) as [[cluster|err] s1]
  end;
  match goal with
  | |- context [match ?b with true => _ | false => _ end] => destruct b
  end;
  simpl service;
  try match goal with
      | |- context [svc_WaitUntilClusterIsActive ?f ?c ?s] =>
          destruct (svc_WaitUntilClusterIsActive f c s) as [[r s2]|]
      end;
  simpl; rewrite <- ?app_assoc; reflexivity.

(** X10. The five operations that take [waitUntilActive] compose the same
    way. The service call runs on the service the account builds. If it
    fails, its error comes back wrapped and the wait is not invoked. If it
    succeeds and no wait was asked for, its cluster comes back. If it
    succeeds and a wait was asked for, the wait is invoked once on that
    cluster and decides the outcome; the operation returns when the wait
    does. The disk is never touched, and the account is saved last. *)
Theorem operations_wait_only_after_success
        (fuel : nat) (account : A) (name template : string) (nodes : Z)
        (waitUntilActive : bool) :
  let composes (m : Method) (first : State S (result Cluster))
               (run : Prog W (result Cluster)) :=
    forall w : W,
      let built := (events w ++ [CacheApply account; Invoke m])%list in
      run w =
        match first (NewClusterService account (service w)) with
        | (inr err, s1) =>
            Some (inr (ClientError err),
                  mkWorld s1 (disk w) (built ++ [CacheSaveAccount account]))
        | (inl cluster, s1) =>
            if waitUntilActive then
              match svc_WaitUntilClusterIsActive fuel cluster s1 with
              | Some (r, s2) =>
                  Some (wrapResult r,
                        mkWorld s2 (disk w)
                                (built ++ [Invoke MWaitUntilClusterIsActive;
                                           CacheSaveAccount account]))
              | None => None
              end
            else
              Some (inl cluster,
                    mkWorld s1 (disk w) (built ++ [CacheSaveAccount account]))
        end in
  composes MCreateCluster (svc_CreateCluster name template nodes)
           (CreateCluster fuel account name template nodes waitUntilActive) /\
  composes MGetCluster (svc_GetCluster name)
           (GetCluster fuel account name waitUntilActive) /\
  composes MGrowCluster (svc_GrowCluster name nodes)
           (GrowCluster fuel account name nodes waitUntilActive) /\
  composes MResizeCluster (svc_ResizeCluster name nodes)
           (ResizeCluster fuel account name nodes waitUntilActive) /\
  composes MRebuildCluster (svc_RebuildCluster name)
           (RebuildCluster fuel account name waitUntilActive).
Proof.
  intros composes. subst composes. cbv beta zeta.
  repeat match goal with |- _ /\ _ => split end.
  - unfold CreateCluster. waits_after_proof.
  - unfold GetCluster. waits_after_proof.
  - unfold GrowCluster. waits_after_proof.
  - unfold ResizeCluster. waits_after_proof.
  - unfold RebuildCluster. waits_after_proof.
Qed.

(** X11. [Client.DeleteCluster] keeps the credentials on disk whenever the
    deletion did not go through: if the service's [DeleteCluster] fails, or
    if the wait that was asked for ends with an error, that error comes back
    wrapped, the credentials are not looked at and the disk is as it was.
    The account is saved all the same. *)
Theorem DeleteCluster_failure_keeps_credentials
        (fuel : nat) (account : A) (name : string) (w : W) :
  let s0 := NewClusterService account (service w) in
  let built := (events w ++ [CacheApply account; Invoke MDeleteCluster])%list in
  (forall waitUntilDeleted err s1,
      svc_DeleteCluster name s0 = (inr err, s1) ->
      DeleteCluster fuel account name waitUntilDeleted w =
        Some (Some (ClientError err),
              mkWorld s1 (disk w) (built ++ [CacheSaveAccount account]))) /\
  (forall cluster s1 err s2,
      svc_DeleteCluster name s0 = (inl cluster, s1) ->
      svc_WaitUntilClusterIsDeleted fuel cluster s1 = Some (Some err, s2) ->
      DeleteCluster fuel account name true w =
        Some (Some (ClientError err),
              mkWorld s2 (disk w)
                      (built ++ [Invoke MWaitUntilClusterIsDeleted;
                                 CacheSaveAccount account]))).
Proof.
  intros s0 built. subst s0 built. split.
  - intros waitUntilDeleted err s1 Hdel.
    unfold DeleteCluster, with_defer, buildContainerService, invoke,
      SaveAccount, emit.
    simpl service. simpl disk. simpl events. rewrite Hdel.
    destruct waitUntilDeleted; simpl; rewrite <- ?app_assoc; reflexivity.
  - intros cluster s1 err s2 Hdel Hwait.
    unfold DeleteCluster, with_defer, buildContainerService, invoke,
      SaveAccount, emit, invoke_wait.
    simpl service. simpl disk. simpl events. rewrite Hdel.
    simpl service. rewrite Hwait. simpl. rewrite <- ?app_assoc. reflexivity.
Qed.

(** X12. Without a filter, or with the filter "*", the client lists every
    template the service lists, in the same order. *)
Theorem ListClusterTemplates_unfiltered
        (account : A) (nameFilter : string) (w : W)
        (templates : list ClusterType) (s' : S) :
  nameFilter = "" \/ nameFilter = "*" ->
  svc_ListClusterTemplates (NewClusterService account (service w)) =
    (inl templates, s') ->
  ListClusterTemplates account nameFilter w =
    Some (inl templates,
          mkWorld s' (disk w)
                  (events w ++ [CacheApply account;
                                Invoke MListClusterTemplates;
                                CacheSaveAccount account])).
Proof.
  intros Hfilter Hlist.
  unfold ListClusterTemplates, with_defer, buildContainerService, invoke,
    SaveAccount, emit. simpl service. simpl disk. simpl events.
  rewrite Hlist.
  assert (Hall : forall l : list ClusterType,
             List.filter (fun t => glob.Glob "*" (TypeName t)) l = l).
  { induction l as [|t l IH]; simpl; [reflexivity|]. rewrite IH. reflexivity. }
  destruct Hfilter as [-> | ->]; simpl; rewrite ?Hall, <- ?app_assoc;
    reflexivity.
Qed.

(** X13. [DownloadClusterCredentials] writes nothing before it has both the
    credentials and a path for them: when the service fails to hand out the
    credentials, its error comes back wrapped by the client, and when the
    path cannot be resolved, that error comes back wrapped in "Unable to
    save downloaded cluster credentials"; either way the disk is as it
    was. *)
Theorem DownloadClusterCredentials_failure_leaves_disk
        (account : A) (name customPath : string) (w : W) :
  let s0 := NewClusterService account (service w) in
  let done s1 :=
    mkWorld s1 (disk w)
            (events w ++ [CacheApply account; Invoke MGetClusterCredentials;
                          CacheSaveAccount account]) in
  (forall err s1,
      svc_GetClusterCredentials name s0 = (inr err, s1) ->
      DownloadClusterCredentials account name customPath w =
        Some (inr (ClientError err), done s1)) /\
  (forall creds s1 err,
      svc_GetClusterCredentials name s0 = (inl creds, s1) ->
      buildClusterCredentialsPath account name customPath = inr err ->
      DownloadClusterCredentials account name customPath w =
        Some (inr (Wrapped err "Unable to save downloaded cluster credentials"),
              done s1)).
Proof.
  intros s0 done. subst s0 done. split.
  - intros err s1 Hget.
    unfold DownloadClusterCredentials, with_defer, buildContainerService,
      invoke, SaveAccount, emit.
    simpl service. simpl disk. simpl events. rewrite Hget.
    simpl. rewrite <- ?app_assoc. reflexivity.
  - intros creds s1 err Hget Hpath.
    unfold DownloadClusterCredentials, with_defer, buildContainerService,
      invoke, SaveAccount, emit.
    simpl service. simpl disk. simpl events. rewrite Hget, Hpath.
    simpl. rewrite <- ?app_assoc. reflexivity.
Qed.

(** X14. The only way [DeleteClusterCredentials] changes the disk is one
    [os.RemoveAll] of the resolved path, cleaned, and that path is then
    neither empty nor "." nor "/", it is there, and its [ca.pem] is not
    reported missing. *)
Theorem DeleteClusterCredentials_only_removes_safe_path
        (account : A) (name customPath : string) (w w' : W)
        (err : option error) :
  DeleteClusterCredentials account name customPath w = (err, w') ->
  disk w' <> disk w ->
  exists resolved,
    buildClusterCredentialsPath account name customPath = inl resolved /\
    let p := filepath_Clean resolved in
    p <> "" /\ p <> "." /\ p <> "/" /\
    os.IsNotExist (os_Stat p (disk w)) = false /\
    os.IsNotExist (os_Stat (filepath_Join p "ca.pem") (disk w)) = false /\
    disk w' = snd (os_RemoveAll p (disk w)).
Proof.
  unfold DeleteClusterCredentials.
  destruct (buildClusterCredentialsPath account name customPath)
    as [resolved|e]; [|intros Heq; inversion Heq; congruence].
  set (p := filepath_Clean resolved).
  destruct (String.eqb p "" || String.eqb p "." || String.eqb p "/")
    eqn:Hguard; [intros Heq; inversion Heq; congruence|].
  destruct (os.IsNotExist (os_Stat p (disk w))) eqn:Hp;
    [intros Heq; inversion Heq; congruence|].
  destruct (os.IsNotExist (os_Stat (filepath_Join p "ca.pem") (disk w)))
    eqn:Hca; [intros Heq; inversion Heq; congruence|].
  unfold on_disk.
  destruct (os_RemoveAll p (disk w)) as [[e|] d'] eqn:Hrm;
    intros Heq _; inversion Heq; subst; exists resolved;
    (split; [reflexivity|]); fold p;
    apply orb_false_iff in Hguard as [Hguard Hroot];
    apply orb_false_iff in Hguard as [Hempty Hdot];
    apply String.eqb_neq in Hempty, Hdot, Hroot;
    repeat (split; [assumption|]); simpl; rewrite Hrm; reflexivity.
Qed.

End Client_composition.

(** * The client over the make-coe service *)

Section Client_over_MakeCOE.
Context {B A FS : Type}.
Context {apiC : CarinaAPI B} {fsC : FileSystem FS}
        {colC : Collaborators A (makecoe.MakeCOE B) FS}.
Variable newCluster : Cluster.
Variable rangeOrder : gmap Z ClusterType -> list ClusterType.
Import client.

Local Abbreviation Svc := (makecoe.MakeCOE B).
Local Abbreviation W := (World A Svc FS).
Local Abbreviation makeCOE := (MakeCOE_ClusterService newCluster rangeOrder).

(** X15. On make-coe, growing, rebuilding and autoscaling are refused
    before anything happens: whatever the fuel and whether or not a wait was
    asked for, the client returns the service's refusal, wrapped; the
    service is the one the account built, untouched, so nothing was sent to
    the remote, not even the authentication; the disk is as it was. *)
Theorem unsupported_operations_never_reach_the_remote
        (fuel : nat) (account : A) (name : string) (nodes : Z)
        (flag : bool) (w : W) :
  let refused (m : Method) (msg : string) :=
    Some (inr (ClientError (ErrorString msg)) : result Cluster,
          mkWorld (NewClusterService account (service w)) (disk w)
                  (events w ++ [CacheApply account; Invoke m;
                                CacheSaveAccount account])) in
  GrowCluster (svcC := makeCOE) fuel account name nodes flag w =
    refused MGrowCluster
      "[make-coe] Grow command not supported. Please use 'resize'." /\
  RebuildCluster (svcC := makeCOE) fuel account name flag w =
    refused MRebuildCluster
      "[make-coe] Rebuilding clusters from the carina cli is not supported yet" /\
  SetAutoScale (svcC := makeCOE) account name flag w =
    refused MSetAutoScale "make-coe does not support autoscaling".
Proof.
  intros refused. subst refused. cbv beta.
  repeat match goal with |- _ /\ _ => split end;
    unfold GrowCluster, RebuildCluster, SetAutoScale, with_defer,
      buildContainerService, invoke, SaveAccount, emit, thenWaitUntilActive;
    simpl; destruct flag; simpl; rewrite <- ?app_assoc; reflexivity.
Qed.

(** X16. [Client.GetCluster] with [waitUntilActive] over make-coe looks the
    cluster up by the name it was given and then polls by the ID of the
    cluster it got. With a session opened, a first answer that is not done
    and a second answer that is, it sends exactly these two fetches, does
    not sleep, and returns the second cluster. *)
Theorem GetCluster_polls_by_ID
        (fuel : nat) (account : A) (name : string) (w : W)
        (carina1 : Svc) (found polled : Cluster) (b1 b2 : B) :
  makecoe.init (NewClusterService account (service w)) = (None, carina1) ->
  api_Get name (makecoe.remote carina1) = (inl found, b1) ->
  makecoe.isDone found = false ->
  api_Get (GetID found) b1 = (inl polled, b2) ->
  makecoe.isDone polled = true ->
  (1 <= fuel)%nat ->
  GetCluster (svcC := makeCOE) fuel account name true w =
    Some (inl polled,
          mkWorld
            (makecoe.mkMakeCOE (makecoe.client carina1)
               (makecoe.clusterTypeCache carina1) b2
               (makecoe.journal carina1 ++
                [CallGet name; CallGet (GetID found)]))
            (disk w)
            (events w ++ [CacheApply account; Invoke MGetCluster;
                          Invoke MWaitUntilClusterIsActive;
                          CacheSaveAccount account])).
Proof.
  intros Hinit Hget Hpending Hpoll Hdone Hfuel.
  assert (Hsession : exists h, makecoe.client carina1 = Some h).
  { revert Hinit. unfold makecoe.init.
    destruct (makecoe.client (NewClusterService account (service w)))
      as [h|] eqn:Hc.
    - intros Heq. inversion Heq; subst. eauto.
    - unfold makecoe.call.
      destruct (api_Authenticate _) as [[[]|e] b']; simpl;
        intros Heq; inversion Heq; subst; simpl; eauto. }
  destruct Hsession as [h Hc].
  unfold GetCluster, with_defer, buildContainerService, invoke, SaveAccount,
    emit, thenWaitUntilActive, invoke_wait.
  simpl service. simpl disk. simpl events. simpl svc_GetCluster.
  unfold makecoe.GetCluster at 1. rewrite Hinit.
  unfold makecoe.call. rewrite Hget.
  simpl service. simpl svc_WaitUntilClusterIsActive.
  unfold makecoe.WaitUntilClusterIsActive. rewrite Hpending.
  destruct fuel as [|fuel]; [lia|]. simpl makecoe.waitActiveLoop.
  erewrite GetCluster_ok; [|exact Hc|exact Hpoll].
  rewrite Hdone. simpl. rewrite <- !app_assoc. reflexivity.
Qed.

End Client_over_MakeCOE.

(** * Starting the client *)

Section NewClient_facts.
Context {C FS : Type} {fsC : FileSystem FS}.
Variable emptyCache : C.
Variable newCache : string -> C.
Variable load : C -> FS -> option error * C * FS.
Variable GetCredentialsDir : result string.
Variable defaultCacheFilename : result string.
Import newclient.

Local Abbreviation start cacheEnabled d :=
  (NewClient emptyCache newCache load GetCredentialsDir defaultCacheFilename
             cacheEnabled d).

(** X17. [NewClient] always hands out a client with a cache. With the
    cache disabled the cache is the empty one, there is no error and the
    disk is not touched. With the cache enabled, whenever the client carries
    an error its cache is the empty one, never the cache whose load failed;
    and when it carries none, the directory was made, the file name was
    found and the cache is the one loaded from that file. *)
Theorem NewClient_always_has_a_cache (cacheEnabled : bool) (d : FS) :
  let client := fst (start cacheEnabled d) in
  is_Some (Cache client) /\
  (cacheEnabled = false ->
   start cacheEnabled d = (mkClient (Some emptyCache) None, d)) /\
  (is_Some (Error client) -> Cache client = Some emptyCache) /\
  (cacheEnabled = true -> Error client = None ->
   exists bd path d1 loaded d2,
     GetCredentialsDir = inl bd /\
     os_MkdirAll bd d = (None, d1) /\
     defaultCacheFilename = inl path /\
     load (newCache path) d1 = (None, loaded, d2) /\
     start cacheEnabled d = (mkClient (Some loaded) None, d2)).
Proof.
  unfold NewClient, initCache, disableCache.
  destruct cacheEnabled; simpl.
  - destruct GetCredentialsDir as [bd|e]; simpl.
    + destruct (os_MkdirAll bd d) as [[e|] d1] eqn:Hmk; simpl.
      * repeat split; eauto; intros; discriminate.
      * destruct defaultCacheFilename as [path|e]; simpl.
        -- destruct (load (newCache path) d1) as [[[e|] loaded] d2] eqn:Hload;
             simpl.
           ++ repeat split; eauto; intros; discriminate.
           ++ split; [eauto|]. split; [intros; discriminate|].
              split; [intros [x Hx]; discriminate|].
              intros _ _. exists bd, path, d1, loaded, d2. repeat split; auto.
        -- repeat split; eauto; intros; discriminate.
    + repeat split; eauto; intros; discriminate.
  - split; [eauto|]. split; [reflexivity|].
    split; [intros [x Hx]; discriminate|]. intros; discriminate.
Qed.

End NewClient_facts.

(** ** The further properties at work on the scenario *)

Lemma GetCluster_error_translation_witness :
  let gateway := EHTTP (mkHTTPErr 502 "bad gateway") in
  let outdated := mkHTTPErr 406 "not acceptable" in
  let fetched answer :=
    fst (makecoe.GetCluster "c-42" (scenario.polling [inr answer])) in
  fetched (Wrapped gateway "GET /clusters/c-42") = inr gateway /\
  fetched (EHTTP outdated) = inr (makecoe.handleNotAcceptable outdated) /\
  fetched cases.outage =
    inr (Wrapped cases.outage "[make-coe] Unable to retrieve cluster (c-42)").
Proof.
  intros gateway outdated fetched. subst fetched. cbv beta.
  split; [|split].
  - rewrite (GetCluster_error_translation "c-42"
               (scenario.polling [inr (Wrapped gateway "GET /clusters/c-42")]) carinaClient
               (Wrapped gateway "GET /clusters/c-42")
               (fixture.remote [] (inr fixture.notFound)));
      reflexivity.
  - rewrite (GetCluster_error_translation "c-42"
               (scenario.polling [inr (EHTTP outdated)]) carinaClient
               (EHTTP outdated)
               (fixture.remote [] (inr fixture.notFound)));
      reflexivity.
  - rewrite (GetCluster_error_translation "c-42"
               (scenario.polling [inr cases.outage]) carinaClient
               cases.outage
               (fixture.remote [] (inr fixture.notFound)));
      reflexivity.
Defined.

Lemma init_opens_session_once_witness :
  let opened := scenario.polled [] [CallAuthenticate] in
  makecoe.init (fixture.fresh (fixture.remote [] (inr fixture.notFound))) =
    (None, opened) /\
  makecoe.init opened = (None, opened) /\
  makecoe.client (cases.service cases.denied [CallAuthenticate]) = None.
Proof.
  intros opened.
  pose proof (init_opens_session_once
                (fixture.fresh (fixture.remote [] (inr fixture.notFound)))
                opened None) as Hopened.
  destruct (Hopened eq_refl) as (_ & Hagain & _).
  pose proof (init_opens_session_once
                (cases.service cases.denied [])
                (cases.service cases.denied [CallAuthenticate])
                (Some cases.refusal)) as Hdenied.
  destruct (Hdenied eq_refl) as (_ & Hnone & _).
  split; [reflexivity|]. split; [exact Hagain|exact Hnone].
Defined.

Lemma operations_stop_at_failed_authentication_witness :
  let failed := cases.service cases.denied [CallAuthenticate] in
  makecoe.GetCluster "web" (cases.service cases.denied []) =
    (inr cases.refusal, failed) /\
  makecoe.CreateCluster fixture.rangeOrder "web" "Swarm*" 3
    (cases.service cases.denied []) = (inr cases.refusal, failed).
Proof.
  intros failed.
  pose proof (operations_stop_at_failed_authentication
                fixture.emptyCluster fixture.rangeOrder
                (cases.service cases.denied []) cases.refusal cases.denied)
    as Hstop.
  destruct (Hstop eq_refl eq_refl) as (Hget & _ & _ & _ & _ & _ & Hcreate).
  split; [apply Hget|]. apply Hcreate. discriminate.
Defined.


Lemma CreateCluster_creates_for_the_unique_match_witness :
  let out :=
    makecoe.CreateCluster fixture.rangeOrder "db" "swarm*" 3
                          (scenario.polling []) in
  fst out = inl (fixture.cluster "building") /\
  exists pre,
    Forall (fun c => forall opts, c <> CallCreate opts) pre /\
    ((makecoe.journal (snd out) = pre /\ exists err, fst out = inr err) \/
     (exists clusterType cache,
         "swarm*" <> "" /\
         makecoe.clusterTypeCache (snd out) = Some cache /\
         List.filter (fun m => glob.GlobI "swarm*" (TypeName m))
                     (map_to_list cache).*2 = [clusterType] /\
         makecoe.journal (snd out) =
           (pre ++ [CallCreate
                      (mkCreateClusterOpts "db" (TypeID clusterType) 3)])%list)).
Proof.
  intros out. split; [vm_compute; reflexivity|].
  refine (CreateCluster_creates_for_the_unique_match
            fixture.rangeOrder _ "db" "swarm*" 3 (scenario.polling [])
            (snd out) (fst out) _).
  - intros m. reflexivity.
  - subst out. apply surjective_pairing.
Defined.

Lemma WaitUntilClusterIsDeleted_returns_iff_witness :
  let deleting := fixture.cluster "deleting" in
  makecoe.WaitUntilClusterIsDeleted 2 deleting
    (scenario.polling [inl deleting; inl (fixture.cluster "Deleted")]) =
  Some (None,
        scenario.polled [] [scenario.fetch; scenario.pause; scenario.fetch]).
Proof.
  intros deleting.
  apply WaitUntilClusterIsDeleted_returns_iff. right.
  split; [reflexivity|].
  exists 1%nat, (scenario.polled [inl (fixture.cluster "Deleted")]
                    [scenario.fetch; scenario.pause]).
  split; [lia|]. split.
  - eapply makecoe.deletedRounds_S with (fetched := deleting);
      [reflexivity|reflexivity|apply makecoe.deletedRounds_O].
  - left. exists (fixture.cluster "Deleted").
    split; [reflexivity|]. right. split; reflexivity.
Defined.

Lemma waits_only_poll_witness :
  let answers := [inl (fixture.cluster "building");
                  inl (mkCluster "c-7" "other" "active" 1)] in
  exists added,
    makecoe.journal
      (scenario.polled [] [scenario.fetch; scenario.pause; scenario.fetch]) =
      (makecoe.journal (scenario.polling answers) ++ added)%list /\
    Forall (fun c => c = CallAuthenticate \/ c = CallGet "c-42" \/
                     c = CallSleep makecoe.pollingInterval) added.
Proof.
  intros answers.
  refine (proj1 (waits_only_poll 2 (fixture.cluster "pending")
                   (scenario.polling answers)
                   (scenario.polled []
                      [scenario.fetch; scenario.pause; scenario.fetch]))
                (inl (mkCluster "c-7" "other" "active" 1)) _).
  reflexivity.
Defined.

Lemma DeleteCluster_failure_keeps_credentials_witness :
  let failure :=
    Wrapped cases.outage "[make-coe] Unable to delete cluster (web)" in
  client.DeleteCluster (svcC := scenario.service) 0 "acct" "web" true
    (cases.world cases.undeletable) =
  Some (Some (ClientError failure),
        client.mkWorld
          (makecoe.mkMakeCOE (Some carinaClient) None cases.undeletable
             [CallAuthenticate; CallDelete "web"])
          scenario.disk
          [client.CacheApply "acct"; client.Invoke client.MDeleteCluster;
           client.CacheSaveAccount "acct"]).
Proof.
  intros failure.
  refine (proj1 (DeleteCluster_failure_keeps_credentials
                   (svcC := scenario.service) 0 "acct" "web"
                   (cases.world cases.undeletable))
                true failure _ _).
  reflexivity.
Defined.

Lemma ListClusterTemplates_unfiltered_witness :
  option_map fst
    (client.ListClusterTemplates (svcC := scenario.service) "acct" "*"
       scenario.world) = Some (inl fixture.templates).
Proof.
  rewrite (ListClusterTemplates_unfiltered (svcC := scenario.service)
             "acct" "*" scenario.world fixture.templates
             (scenario.polled [] [CallAuthenticate; CallListClusterTypes]));
    [reflexivity|right; reflexivity|reflexivity].
Defined.

Lemma DownloadClusterCredentials_failure_leaves_disk_witness :
  option_map (fun out => (fst out, client.disk (snd out)))
    (client.DownloadClusterCredentials (svcC := scenario.service)
       "acct" "db" "" (cases.world cases.without_credentials)) =
  Some (inr (ClientError
               (Wrapped cases.outage
                  "[make-coe] Unable to retrieve the cluster credentials")),
        scenario.disk).
Proof.
  rewrite (proj1 (DownloadClusterCredentials_failure_leaves_disk
                    (svcC := scenario.service) "acct" "db" ""
                    (cases.world cases.without_credentials))
                 (Wrapped cases.outage
                    "[make-coe] Unable to retrieve the cluster credentials")
                 (makecoe.mkMakeCOE (Some carinaClient) None
                    cases.without_credentials
                    [CallAuthenticate; CallGetCredentials "db"]));
    reflexivity.
Defined.

Lemma DeleteClusterCredentials_only_removes_safe_path_witness :
  let removed : scenario.World :=
    client.mkWorld (client.service scenario.world)
                   ["/home/u/.carina/clusters/acct/old"; "/etc/passwd"] [] in
  exists resolved,
    buildClusterCredentialsPath "acct" "web" "" = inl resolved /\
    let p := filepath.Clean resolved in
    p <> "" /\ p <> "." /\ p <> "/" /\
    os.IsNotExist (memfs.Stat p scenario.disk) = false /\
    os.IsNotExist (memfs.Stat (filepath.Join p "ca.pem") scenario.disk) =
      false /\
    client.disk removed = snd (memfs.RemoveAll p scenario.disk).
Proof.
  intros removed.
  refine (DeleteClusterCredentials_only_removes_safe_path
            "acct" "web" "" scenario.world removed None _ _).
  - vm_compute. reflexivity.
  - discriminate.
Defined.

Lemma GetCluster_polls_by_ID_witness :
  client.GetCluster (svcC := scenario.service) 1 "acct" "web" true
    (cases.world cases.building_then_active) =
  Some (inl (fixture.cluster "active"),
        client.mkWorld
          (makecoe.mkMakeCOE (Some carinaClient) None
             (cases.remote (inl carinaClient) [] (inr fixture.notFound)
                           cases.bundle)
             [CallAuthenticate; CallGet "web"; CallGet "c-42"])
          scenario.disk
          [client.CacheApply "acct"; client.Invoke client.MGetCluster;
           client.Invoke client.MWaitUntilClusterIsActive;
           client.CacheSaveAccount "acct"]).
Proof.
  refine (GetCluster_polls_by_ID fixture.emptyCluster fixture.rangeOrder
            1 "acct" "web" (cases.world cases.building_then_active)
            (makecoe.mkMakeCOE (Some carinaClient) None
               cases.building_then_active [CallAuthenticate])
            (fixture.cluster "building") (fixture.cluster "active")
            (cases.remote (inl carinaClient)
                          [inl (fixture.cluster "active")]
                          (inr fixture.notFound) cases.bundle)
            (cases.remote (inl carinaClient) [] (inr fixture.notFound)
                          cases.bundle)
            _ _ _ _ _ _); first [reflexivity | lia].
Defined.

Lemma NewClient_always_has_a_cache_witness :
  let cacheFile := "/home/u/.carina/cache.json" in
  (exists loaded d',
      cachefixture.NewClient true [cacheFile] =
        (newclient.mkClient (Some loaded) None, d')) /\
  newclient.Cache (fst (cachefixture.NewClient true [])) =
    Some cachefixture.emptyCache /\
  cachefixture.NewClient false [] =
    (newclient.mkClient (Some cachefixture.emptyCache) None, []).
Proof.
  intros cacheFile.
  pose proof (NewClient_always_has_a_cache
                cachefixture.emptyCache cachefixture.newCache
                cachefixture.load (inl (cachefixture.home ++ "/clusters"))
                (inl (cachefixture.home ++ "/cache.json"))) as Hstart.
  split; [|split].
  - destruct (Hstart true [cacheFile]) as (_ & _ & _ & Hloaded).
    destruct (Hloaded eq_refl eq_refl)
      as (bd & path & d1 & loaded & d2 & _ & _ & _ & _ & Heq).
    exists loaded, d2. exact Heq.
  - destruct (Hstart true []) as (_ & _ & Herr & _).
    apply Herr. vm_compute. eauto.
  - destruct (Hstart false []) as (_ & Hoff & _).
    apply Hoff. reflexivity.
Defined.

Lemma DeleteCluster_only_not_found_is_success_witness :
  exists err',
    fst (makecoe.DeleteCluster fixture.emptyCluster "web"
           (cases.service cases.undeletable [])) = inr err' /\
    errors.Cause err' = cases.outage.
Proof.
  pose proof (DeleteCluster_only_not_found_is_success
                fixture.emptyCluster "web"
                (cases.service cases.undeletable [])
                (makecoe.mkMakeCOE (Some carinaClient) None cases.undeletable
                   [CallAuthenticate])
                (inr cases.outage) cases.undeletable) as Honly.
  apply (Honly eq_refl eq_refl).
  intros (httpErr & Hcause & _). discriminate.
Defined.

(** * Credentials that are a file *)

Section Unmarked_path.
Context {A S FS : Type}.
Context {svcC : ClusterService S} {fsC : FileSystem FS}
        {colC : Collaborators A S FS}.
Import client.

(** The marker is only ever reported missing by an error that
    [os.IsNotExist] accepts. When the stat of [p/ca.pem] fails in any other
    way, nothing tells the code that the marker is there, and yet the
    removal runs. *)
Lemma DeleteClusterCredentials_removes_on_other_stat_error
      (account : A) (name customPath : string) (w : World A S FS)
      (resolved : string) (statErr : error) :
  buildClusterCredentialsPath account name customPath = inl resolved ->
  let p := filepath_Clean resolved in
  p <> "" -> p <> "." -> p <> "/" ->
  os.IsNotExist (os_Stat p (disk w)) = false ->
  os_Stat (filepath_Join p "ca.pem") (disk w) = Some statErr ->
  os.IsNotExist (Some statErr) = false ->
  disk (snd (DeleteClusterCredentials account name customPath w)) =
  snd (os_RemoveAll p (disk w)).
Proof.
  intros Hb p Hempty Hdot Hroot Hthere Hstat Hother.
  unfold DeleteClusterCredentials. rewrite Hb. fold p.
  apply String.eqb_neq in Hempty, Hdot, Hroot.
  rewrite Hempty, Hdot, Hroot. simpl orb. cbv iota.
  rewrite Hthere, Hstat, Hother. unfold on_disk.
  destruct (os_RemoveAll p (disk w)) as [[err|] d']; reflexivity.
Qed.

End Unmarked_path.

(** C3. The code at an input where it departs from the claim. The
    override directory names a regular file, the notes of the user. The
    path is clean, it is there, and no [ca.pem] is on the disk under it: the
    path exists and lacks the marker. The stat of [notes/ca.pem] fails, but
    with "not a directory", which [os.IsNotExist] does not accept; so the
    refusal "exists but not the ca.pem" is skipped, [os.RemoveAll] runs, the
    file of notes is gone and no error is returned. *)
Theorem DeleteClusterCredentials_removes_unmarked_file :
  let p := homedir.notes in
  filepath.Clean p = p /\
  posixfs.kind_of p homedir.disk = Some posixfs.File /\
  posixfs.kind_of (filepath.Join p "ca.pem") homedir.disk = None /\
  posixfs.Stat (filepath.Join p "ca.pem") homedir.disk =
    Some (PathError "/home/u/notes.txt/ca.pem" false) /\
  client.DeleteClusterCredentials "acct" "web" p homedir.world =
    (None,
     homedir.on
       [ ("/home", posixfs.Dir);
         ("/home/u", posixfs.Dir);
         ("/home/u/.carina/clusters/acct/web", posixfs.Dir);
         ("/home/u/.carina/clusters/acct/web/ca.pem", posixfs.File) ]).
Proof.
  intros p. subst p.
  split; [reflexivity|]. split; [reflexivity|]. split; [reflexivity|].
  split; [reflexivity|]. vm_compute. reflexivity.
Qed.

(** On the same disk the credentials of "web", which carry their marker,
    are removed, and a cluster without a directory leaves the disk alone. *)
Example DeleteClusterCredentials_on_files_and_directories :
  client.DeleteClusterCredentials "acct" "web" "" homedir.world =
    (None,
     homedir.on [ ("/home", posixfs.Dir); ("/home/u", posixfs.Dir);
                  (homedir.notes, posixfs.File) ]) /\
  client.DeleteClusterCredentials "acct" "none" "" homedir.world =
    (None, homedir.world).
Proof. split; vm_compute; reflexivity. Qed.
